(** * ip-freely: a dynamic-DNS client, embedded and verified

    A shallow embedding of [ip-freely.py].  The program looks up the public
    address of the host, compares it with the record published for a host
    name, and, when they differ, writes an nsupdate script to a temporary
    file, runs nsupdate on it and removes the file.

    Conventions of the embedding.
    - A Python [str] is a Rocq [string]: a sequence of characters whose code
      points lie in 0..255.  In that range the class [\d] of module [re] is
      exactly the ten digits 0..9 and [str.isspace] is the set listed in
      [isspace] below.
    - [bytes] is [list Byte.byte].
    - Exceptions are explicit: a computation yields [Ret v] or [Raise e].
      The classes derived from [Exception] form the type [exception];
      [SystemExit] is the one [BaseException] outside of it that the program
      raises itself (through [sys.exit]).
    - The outside world (file system, HTTP endpoint, resolver, DNS server,
      the nsupdate binary) is a record [World] of answers; what the program
      does to it is logged as a list of [event]s, and the files the run
      has created and not removed are a [gmap] from path to content.
    - [print] appends to the standard output and does not fail.
    - [assert] statements are active (the interpreter runs without [-O]).

    What lies outside of the embedding.
    - Characters above U+00FF: the decimal digits of other scripts, which
      [\d] also matches, and the surrogate escapes of an argument that is
      not valid UTF-8, on which [socket.inet_pton] and the writing of the
      script raise [UnicodeEncodeError].
    - The exits of argparse: [parse_args] of a [World] is what
      [parser.parse_args()] returns when it returns.  [invocation] puts the
      two exits of argparse in front of a run.
    - Failures of the file system: creating the temporary file, writing it
      and removing it succeed. *)

From Stdlib Require Import ZArith NArith Ascii String.
From Stdlib.Strings Require Import Byte.
From stdpp Require Import base decidable option list strings gmap pretty.

Local Open Scope Z_scope.

(** ** Text helpers ([str] methods used by the program) *)

Module Str.

(** [c.isspace()] for a character below U+0100. *)
Definition isspace (c : ascii) : bool :=
  let n := N_of_ascii c in
  ((9 <=? n) && (n <=? 13) || (28 <=? n) && (n <=? 32)
   || (n =? 133) || (n =? 160))%N.

Fixpoint lstrip (s : string) : string :=
  match s with
  | String c s' => if isspace c then lstrip s' else s
  | EmptyString => EmptyString
  end.

Fixpoint rstrip (s : string) : string :=
  match s with
  | String c s' =>
      match rstrip s' with
      | EmptyString => if isspace c then EmptyString else String c EmptyString
      | r => String c r
      end
  | EmptyString => EmptyString
  end.

(** [s.strip()] *)
Definition strip (s : string) : string := lstrip (rstrip s).

(** [s.split(sep)] for a separator of one character. *)
Fixpoint split (sep : ascii) (s : string) : list string :=
  match s with
  | EmptyString => [EmptyString]
  | String c s' =>
      if decide (c = sep) then EmptyString :: split sep s'
      else match split sep s' with
           | w :: ws => String c w :: ws
           | [] => [String c EmptyString]
           end
  end.

(** [sep.join(l)] *)
Fixpoint join (sep : string) (l : list string) : string :=
  match l with
  | [] => ""
  | [w] => w
  | w :: ws => w +:+ sep +:+ join sep ws
  end.

(** ['\x00' in s] *)
Fixpoint has_nul (s : string) : bool :=
  match s with
  | EmptyString => false
  | String c s' => (N_of_ascii c =? 0)%N || has_nul s'
  end.

Definition is_digit (c : ascii) : bool :=
  let n := N_of_ascii c in ((48 <=? n) && (n <=? 57))%N.

End Str.

(** ** The fragment of module [re] that the program uses *)

Module Re.

Inductive atom :=
| Digit                 (* \d *)
| Lit (c : ascii).      (* a literal character, such as \. *)

Inductive item :=
| Bol                             (* ^ *)
| Eol                             (* $ *)
| Rep (a : atom) (lo hi : nat).   (* a{lo,hi} *)

Definition atom_matches (a : atom) (c : ascii) : bool :=
  match a with
  | Digit => Str.is_digit c
  | Lit c' => bool_decide (c = c')
  end.

(** [$] without [re.MULTILINE]: the end of the string, or just before a
    newline that is the last character of the string. *)
Definition at_end (s : string) : bool :=
  match s with
  | EmptyString => true
  | String c EmptyString => bool_decide (c = "010"%char)
  | _ => false
  end.

(** [a{lo,hi}] followed by the rest of the pattern [k].  [lo] repetitions
    are still required and [room] more are allowed; one more repetition is
    tried first (the quantifier is greedy), then the rest of the pattern. *)
Fixpoint match_rep (a : atom) (k : bool → string → bool)
    (lo room : nat) (at_start : bool) (s : string) : bool :=
  match room, s with
  | S room', String c s' =>
      atom_matches a c && match_rep a k (pred lo) room' false s'
  | _, _ => false
  end
  || match lo with O => k at_start s | S _ => false end.

Fixpoint match_here (p : list item) (at_start : bool) (s : string) : bool :=
  match p with
  | [] => true
  | Bol :: p' => at_start && match_here p' at_start s
  | Eol :: p' => at_end s && match_here p' at_start s
  | Rep a lo hi :: p' => match_rep a (match_here p') lo hi at_start s
  end.

(** [re.match(p, s)], as a truth value ([None] is false, a match object
    is true). *)
Definition re_match (p : list item) (s : string) : bool :=
  match_here p true s.

End Re.

(** ** Exceptions and results *)

Inductive exception :=
| AssertionError
| ValueError (msg : string)
| IndexError (msg : string)
| UnicodeDecodeError (msg : string)
| OSError (msg : string)           (* socket.error, socket.gaierror, ... *)
| LibraryError (cls msg : string). (* urllib3 and resolver exceptions *)

Inductive base_exception :=
| SystemExit (arg : option string)
| Exc (e : exception).

Inductive result (A : Type) :=
| Ret (a : A)
| Raise (e : base_exception).
Arguments Ret {A} a.
Arguments Raise {A} e.

(** ** Address validators *)

(** *** The C library's [inet_pton] for [AF_INET6]

    [socket.inet_pton] hands the string to the C library.  The two loops
    below follow the library's [inet_pton4] and [inet_pton6]: the address is
    groups of up to four hexadecimal digits separated by colons, [::] stands
    once for a run of zero groups, and the last four bytes may be written as
    a dotted quad of decimal octets. *)

Module Libc.

Definition hex_digit_value (c : ascii) : option N :=
  let n := N_of_ascii c in
  if ((48 <=? n) && (n <=? 57))%N then Some (n - 48)%N
  else if ((97 <=? n) && (n <=? 102))%N then Some (n - 87)%N
  else if ((65 <=? n) && (n <=? 70))%N then Some (n - 55)%N
  else None.

Definition dec_digit_value (c : ascii) : option N :=
  let n := N_of_ascii c in
  if ((48 <=? n) && (n <=? 57))%N then Some (n - 48)%N else None.

(** [done] are the octets completed so far, [cur] is the octet being
    read ([*tp]). *)
Fixpoint inet_pton4_loop (src : string) (saw_digit : bool) (octets : nat)
    (done : list N) (cur : N) : option (list N) :=
  match src with
  | EmptyString =>
      if (octets <? 4)%nat then None else Some (done ++ [cur])
  | String ch src' =>
      match dec_digit_value ch with
      | Some d =>
          let new := (cur * 10 + d)%N in
          if saw_digit && (cur =? 0)%N then None
          else if (255 <? new)%N then None
          else if saw_digit then inet_pton4_loop src' true octets done new
          else if (4 <? S octets)%nat then None
          else inet_pton4_loop src' true (S octets) done new
      | None =>
          if bool_decide (ch = "."%char) && saw_digit then
            if (octets =? 4)%nat then None
            else inet_pton4_loop src' false octets (done ++ [cur]) 0%N
          else None
      end
  end.

Definition inet_pton4 (src : string) : option (list N) :=
  inet_pton4_loop src false 0 [] 0%N.

Definition store16 (tp : list N) (val : N) : list N :=
  tp ++ [N.land (N.shiftr val 8) 255; N.land val 255]%N.

(** What follows the loop: the pending group is stored, the [::] gap is
    filled with zeros, and the address must be exactly 16 bytes. *)
Definition inet_pton6_finish (tp : list N) (colonp : option nat)
    (xdigits_seen : nat) (val : N) : option (list N) :=
  match
    (if (0 <? xdigits_seen)%nat then
       if (16 <? length tp + 2)%nat then None else Some (store16 tp val)
     else Some tp)
  with
  | None => None
  | Some tp =>
      match
        (match colonp with
         | Some k =>
             if (length tp =? 16)%nat then None
             else Some (take k tp ++ replicate (16 - length tp) 0%N
                          ++ drop k tp)
         | None => Some tp
         end)
      with
      | None => None
      | Some tp => if (length tp =? 16)%nat then Some tp else None
      end
  end.

(** The main loop.  [tp] are the bytes stored so far, [colonp] the offset
    of [::] in them, [curtok] the text from the start of the current
    group. *)
Fixpoint inet_pton6_loop (src : string) (tp : list N) (colonp : option nat)
    (curtok : string) (xdigits_seen : nat) (val : N) : option (list N) :=
  match src with
  | EmptyString => inet_pton6_finish tp colonp xdigits_seen val
  | String ch src' =>
      match hex_digit_value ch with
      | Some digit =>
          if (xdigits_seen =? 4)%nat then None
          else
            let val' := N.lor (N.shiftl val 4) digit in
            if (65535 <? val')%N then None
            else inet_pton6_loop src' tp colonp curtok (S xdigits_seen) val'
      | None =>
          if bool_decide (ch = ":"%char) then
            if (xdigits_seen =? 0)%nat then
              match colonp with
              | Some _ => None
              | None => inet_pton6_loop src' tp (Some (length tp)) src' 0 0%N
              end
            else if bool_decide (src' = EmptyString) then None
            else if (16 <? length tp + 2)%nat then None
            else inet_pton6_loop src' (store16 tp val) colonp src' 0 0%N
          else if bool_decide (ch = "."%char) && (length tp + 4 <=? 16)%nat
          then
            match inet_pton4 curtok with
            | Some quad => inet_pton6_finish (tp ++ quad) colonp 0 val
            | None => None
            end
          else None
      end
  end.

Definition inet_pton6 (src : string) : option (list N) :=
  match src with
  | EmptyString => None
  | String ch src' =>
      if bool_decide (ch = ":"%char) then
        match src' with
        | String ch' _ =>
            if bool_decide (ch' = ":"%char)
            then inet_pton6_loop src' [] None src' 0 0%N
            else None
        | EmptyString => None
        end
      else inet_pton6_loop src [] None src 0 0%N
  end.

End Libc.

(** [socket.inet_pton(socket.AF_INET6, ip)]: a string with an embedded null
    character is refused with [ValueError] before the C library sees it; a
    string the library cannot parse raises [socket.error]. *)
Definition socket_inet_pton6 (ip : string) : result (list N) :=
  if Str.has_nul ip then Raise (Exc (ValueError "embedded null character"))
  else match Libc.inet_pton6 ip with
       | Some addr => Ret addr
       | None => Raise (Exc (OSError "illegal IP address string passed to inet_pton"))
       end.

(** [r'^\d{1,3}\.\d{1,3}\.\d{1,3}\.\d{1,3}$'] *)
Definition ipv4_pattern : list Re.item :=
  [Re.Bol;
   Re.Rep Re.Digit 1 3; Re.Rep (Re.Lit ".") 1 1;
   Re.Rep Re.Digit 1 3; Re.Rep (Re.Lit ".") 1 1;
   Re.Rep Re.Digit 1 3; Re.Rep (Re.Lit ".") 1 1;
   Re.Rep Re.Digit 1 3;
   Re.Eol].

(** check if ip is ipv4 *)
Definition is_ipv4 (ip : string) : bool := Re.re_match ipv4_pattern ip.

(** check if ip is ipv6: [socket.error] is caught, anything else
    propagates. *)
Definition is_ipv6 (ip : string) : result bool :=
  match socket_inet_pton6 ip with
  | Ret _ => Ret true
  | Raise (Exc (OSError _)) => Ret false
  | Raise e => Raise e
  end.

(** check if ip is an ip *)
Definition is_ip (ip dnstype : string) : result bool :=
  if bool_decide (dnstype = "A") then Ret (is_ipv4 ip)
  else if bool_decide (dnstype = "AAAA") then is_ipv6 ip
  else if is_ipv4 ip then Ret true else is_ipv6 ip.


(** ** [repr] and [str] of the values the program formats with [%s] *)

Abbreviation bytes := (list Byte.byte).

Module Repr.

Definition hex_char (n : N) : ascii :=
  ascii_of_N (if (n <? 10)%N then 48 + n else 87 + n)%N.

(** [\xhh] *)
Definition hex_escape (n : N) : string :=
  String "\" (String "x" (String (hex_char (n / 16)%N)
                                 (String (hex_char (n mod 16)%N) ""))).

Definition squote : ascii := "'"%char.
Definition dquote : ascii := ascii_of_N 34.

Definition has_char (c : ascii) (l : list ascii) : bool :=
  bool_decide (c ∈ l).

(** Single quotes, unless the text holds a single quote and no double
    quote. *)
Definition pick_quote (l : list ascii) : ascii :=
  if has_char squote l && negb (has_char dquote l) then dquote else squote.

Definition escape_char (printable : N → bool) (quote c : ascii) : string :=
  let n := N_of_ascii c in
  if bool_decide (c = quote) || bool_decide (c = "\"%char)
  then String "\" (String c "")
  else if (n =? 9)%N then "\t"
  else if (n =? 10)%N then "\n"
  else if (n =? 13)%N then "\r"
  else if printable n then String c ""
  else hex_escape n.

Definition quoted (printable : N → bool) (l : list ascii) : string :=
  let q := pick_quote l in
  String q (foldr (λ c acc, escape_char printable q c +:+ acc)
                  (String q "") l).

Definition bytes_printable (n : N) : bool := ((32 <=? n) && (n <? 127))%N.

(** [str.isprintable] below U+0100 *)
Definition str_printable (n : N) : bool :=
  ((32 <=? n) && (n <? 127) || (161 <=? n) && negb (n =? 173))%N.

(** [repr(b)] for [b : bytes]; it is also [str(b)] and ['%s' % b]. *)
Definition repr_bytes (b : bytes) : string :=
  String "b" (quoted bytes_printable (ascii_of_byte <$> b)).

(** [repr(s)] for [s : str] *)
Definition repr_str (s : string) : string :=
  quoted str_printable (list_ascii_of_string s).

(** [str(l)] for a list of strings *)
Definition str_list (l : list string) : string :=
  "[" +:+ Str.join ", " (repr_str <$> l) +:+ "]".

(** [str(exc)]: the message the exception carries *)
Definition str_exception (e : exception) : string :=
  match e with
  | AssertionError => ""
  | ValueError msg | IndexError msg | UnicodeDecodeError msg
  | OSError msg | LibraryError _ msg => msg
  end.

End Repr.

(** ** The outside world *)

(** The [Namespace] returned by [parser.parse_args()].  Options given
    without a default are [None] when absent. *)
Module Args.
Record t := mk {
  exe : string;
  privkey : option string;
  server : option string;
  force : bool;
  ttl : Z;
  hostname : option string;
  dnstype : string;
  deleteonly : bool;
  remoteiplookup : option string
}.

Definition set_remoteiplookup (url : string) (a : t) : t :=
  mk (exe a) (privkey a) (server a) (force a) (ttl a) (hostname a)
     (dnstype a) (deleteonly a) (Some url).
End Args.

(** One entry of [socket.getaddrinfo]'s answer; of the socket address only
    the host, its first component, is read. *)
Record addrinfo := {
  ai_family : Z;
  ai_socktype : Z;
  ai_proto : Z;
  ai_canonname : string;
  ai_sockaddr_host : string
}.

Record World := {
  (** [parser.parse_args()] *)
  parse_args : Args.t;
  (** [os.path.isfile(path)] *)
  isfile : string → bool;
  (** the body of the answer to [GET url], decoded as UTF-8: what
      [http.request("GET", url).data.decode("utf-8")] evaluates to *)
  http_get : string → exception + string;
  (** [socket.getaddrinfo(host, port)] *)
  getaddrinfo : string → Z → exception + list addrinfo;
  (** [Nslookup(dns_servers=[server], ...).dns_lookup(hostname).answer] *)
  dns_lookup : string → string → exception + list string;
  (** the same with [dns_lookup6] *)
  dns_lookup6 : string → string → exception + list string;
  (** the name [tempfile.NamedTemporaryFile] picks *)
  tmpname : string;
  (** [Popen(cmd, ...)] followed by [communicate()]: the two captured
      streams and [returncode], or the exception raised by the launch *)
  popen : list string → exception + (bytes * bytes * Z)
}.

Inductive event :=
| EvIsFile (path : string)
| EvHttpGet (url : string)
| EvGetAddrInfo (host : string) (port : Z)
| EvDnsQuery (server hostname rdtype : string)
| EvTempCreate (path : string)
| EvWrite (path content : string)
| EvPopen (cmd : list string)
| EvRemove (path : string).

(** A network action is an HTTP request, a name resolution or a DNS
    query. *)
Definition is_network (ev : event) : bool :=
  match ev with
  | EvHttpGet _ | EvGetAddrInfo _ _ | EvDnsQuery _ _ _ => true
  | _ => false
  end.

(** What a run has done so far: the lines printed, the actions on the
    outside world, and the files the run has created and not removed. *)
Record state := mkState {
  printed : list string;
  log : list event;
  files : gmap string string
}.

Definition initial : state := mkState [] [] ∅.

(** ** The monad of the program: state and exceptions *)

Definition M (A : Type) : Type := state → result A * state.

Global Instance M_ret : MRet M := λ A a s, (Ret a, s).
Global Instance M_bind : MBind M := λ A B f m s,
  match m s with
  | (Ret a, s') => f a s'
  | (Raise e, s') => (Raise e, s')
  end.

Definition raise {A} (e : base_exception) : M A := λ s, (Raise e, s).

(** A pure computation that may raise *)
Definition lift {A} (r : result A) : M A := λ s, (r, s).

(** The answer of a collaborator *)
Definition answer {A} (r : exception + A) : M A :=
  match r with
  | inl e => raise (Exc e)
  | inr a => mret a
  end.

(** [try: body / except Exception as exc: handler exc] *)
Definition try_except_Exception {A} (body : M A) (handler : exception → M A)
  : M A := λ s,
  match body s with
  | (Raise (Exc e), s') => handler e s'
  | r => r
  end.

(** [try: body / except: handler] *)
Definition try_except {A} (body : M A) (handler : M A) : M A := λ s,
  match body s with
  | (Raise _, s') => handler s'
  | r => r
  end.

(** [assert b] *)
Definition assert (b : bool) : M unit :=
  if b then mret () else raise (Exc AssertionError).

(** [sys.exit(arg)] *)
Definition sys_exit {A} (arg : option string) : M A := raise (SystemExit arg).

Definition emit (ev : event) : M unit := λ s,
  (Ret (), mkState (printed s) (log s ++ [ev]) (files s)).

(** [print(text)] *)
Definition print (text : string) : M unit := λ s,
  (Ret (), mkState (printed s ++ [text]) (log s) (files s)).

Definition update_files (f : gmap string string → gmap string string)
  : M unit := λ s, (Ret (), mkState (printed s) (log s) (f (files s))).

(** [os.remove(path)] *)
Definition os_remove (path : string) : M unit :=
  emit (EvRemove path);; update_files (delete path).

Definition when (b : bool) (m : M unit) : M unit := if b then m else mret ().

(** The truth value of an optional string: [None] and [''] are false. *)
Definition truthy (o : option string) : bool :=
  match o with
  | None | Some EmptyString => false
  | Some _ => true
  end.

(** [o is not None] *)
Definition is_not_None (o : option string) : bool :=
  match o with
  | None => false
  | Some _ => true
  end.

(** ** The program *)

Section Program.

(** [DEBUG = os.getenv('IPDEBUG')] *)
Variable DEBUG : option string.
Variable w : World.

(** parse CL args *)
Definition getargs : M Args.t :=
  let args := parse_args w in
  let args :=
    match Args.remoteiplookup args with
    | None =>
        if bool_decide (Args.dnstype args = "A")
        then Args.set_remoteiplookup "https://api.ipify.org" args
        else Args.set_remoteiplookup "https://api64.ipify.org" args
    | Some _ => args
    end in
  when (truthy DEBUG)
    (print ("Set iplookup to "
            +:+ default "None" (Args.remoteiplookup args)));;
  mret args.

(** The text of the nsupdate script *)
Definition nsupdate_content (server domain hostname newip : string)
    (ttl : Z) (dnstype : string) (deleteonly : bool) : string :=
  let del_line := "update delete " +:+ hostname +:+ ". " +:+ dnstype in
  let add_line :=
    if deleteonly then ""
    else "update add " +:+ hostname +:+ ". " +:+ pretty ttl +:+ " "
         +:+ dnstype +:+ " " +:+ newip in
  "server " +:+ server +:+ ".
debug yes
zone " +:+ domain +:+ ".
" +:+ del_line +:+ "
" +:+ add_line +:+ "
show
send
quit".

(** create file for nsupdate command *)
Definition create_nsupdate_contents (server domain hostname newip : string)
    (ttl : Z) (dnstype : string) (deleteonly : bool) : M string :=
  when (truthy DEBUG && deleteonly) (print "delete only");;
  let content :=
    nsupdate_content server domain hostname newip ttl dnstype deleteonly in
  (* nsfile = tempfile.NamedTemporaryFile(mode='w', delete=False) *)
  let nsfile := tmpname w in
  emit (EvTempCreate nsfile);;
  update_files (insert nsfile "");;
  (* with nsfile: nsfile.write(content) *)
  emit (EvWrite nsfile content);;
  update_files (insert nsfile content);;
  when (truthy DEBUG) (print ("---
" +:+ content +:+ "
---
"));;
  mret nsfile.

(** run the nsupdate cmd *)
Definition run_nsupdate (exe privkey conffile : string)
  : M (bytes * bytes * Z) :=
  let cmd := [exe; "-k"; privkey; "-v"; conffile] in
  emit (EvPopen cmd);;
  '(stdout, stderr, rc) ← answer (popen w cmd);
  when (is_not_None DEBUG)
    (print (Repr.repr_bytes stdout +:+ "

" +:+ Repr.repr_bytes stderr +:+ "
"));;
  mret (stdout, stderr, rc).

(** lookup external IP *)
Definition get_remote_ip (remoteiplookup dnstype : string)
  : M (option string) :=
  try_except_Exception
    (emit (EvHttpGet remoteiplookup);;
     data ← answer (http_get w remoteiplookup);
     let ip := Str.strip data in
     ok ← lift (is_ip ip dnstype);
     assert ok;;
     mret (Some ip))
    (λ exc,
      (* http req failed *)
      when (truthy DEBUG)
        (print ("get_remote_ip exception: " +:+ Repr.str_exception exc));;
      mret None).

(** [all(is_ip(ip, dnstype) for ip in ips)]: the generator stops at the
    first false value *)
Fixpoint all_is_ip (ips : list string) (dnstype : string) : result bool :=
  match ips with
  | [] => Ret true
  | ip :: ips' =>
      match is_ip ip dnstype with
      | Ret true => all_is_ip ips' dnstype
      | r => r
      end
  end.

(** [l[-1]] *)
Definition last_item {A} (l : list A) : M A :=
  match last l with
  | Some a => mret a
  | None => raise (Exc (IndexError "list index out of range"))
  end.

(** return current IP(s) for hostname from updating DNS server *)
Definition get_current_ips (hostname server dnstype : string)
  : M (list string) :=
  ips ← try_except
    ((* if dns server is not an ip get the IP *)
     literal ← lift (is_ip server "ANY");
     server ←
       (if negb literal then
          emit (EvGetAddrInfo server 80);;
          infos ← answer (getaddrinfo w server 80);
          info ← last_item infos;
          let server := ai_sockaddr_host info in
          when (truthy DEBUG)
            (print ("get_current_ip: dns server ip: " +:+ server));;
          mret server
        else mret server);
     ips ←
       (if bool_decide (dnstype = "A") then
          emit (EvDnsQuery server hostname "A");;
          answer (dns_lookup w server hostname)
        else
          emit (EvDnsQuery server hostname "AAAA");;
          answer (dns_lookup6 w server hostname));
     when (truthy DEBUG)
       (print ("get_current_ip: current record: " +:+ Repr.str_list ips));;
     (* ensure returned records look ok *)
     ok ← lift (all_is_ip ips dnstype);
     assert ok;;
     mret ips)
    (mret []);
  (* finally *)
  when (truthy DEBUG)
    (print ("get_current_ip: " +:+ hostname +:+ " is "
            +:+ Repr.str_list ips));;
  mret ips.

(** [set([ip]) == set(currentips)] *)
Definition same_set (ip : string) (currentips : list string) : bool :=
  bool_decide (({[ ip ]} : gset string) = list_to_set currentips).

Definition main : M unit :=
  args ← getargs;
  match Args.privkey args, Args.server args, Args.hostname args with
  | Some privkey, Some server, Some hostname =>
      emit (EvIsFile privkey);;
      if negb (isfile w privkey) then
        sys_exit (Some "ERROR: key files not found")
      else
        let url := default "None" (Args.remoteiplookup args) in
        ip ← get_remote_ip url (Args.dnstype args);
        match ip with
        | None => sys_exit (Some "Invalid IP returned")
        | Some ip =>
            currentips ← get_current_ips hostname server (Args.dnstype args);
            (* don't update if record same as new IP *)
            if same_set ip currentips && negb (Args.force args)
               && negb (Args.deleteonly args)
            then
              when (truthy DEBUG)
                (print (hostname +:+ " is " +:+ ip
                        +:+ " - unchanged. No update"));;
              sys_exit None
            else
              (* get domain from hostname *)
              let domain := Str.join "." (tail (Str.split "." hostname)) in
              conffile ← create_nsupdate_contents server domain hostname ip
                           (Args.ttl args) (Args.dnstype args)
                           (Args.deleteonly args);
              '(stdout, stderr, rc) ←
                 run_nsupdate (Args.exe args) privkey conffile;
              os_remove conffile;;
              if bool_decide (rc ≠ 0) then
                sys_exit (Some ("ERROR: nsupdate failed - "
                                +:+ Repr.repr_bytes stdout +:+ " / "
                                +:+ Repr.repr_bytes stderr))
              else mret ()
        end
  | _, _, _ => sys_exit (Some "ERROR: not all args specified")
  end.

End Program.

(** ** The process: [if __name__ == "__main__": main()] *)

(** What the interpreter writes to the standard error when the run ends *)
Inductive stderr_output :=
| Silent
| Message (text : string)      (* the argument of [sys.exit] *)
| Traceback (e : exception).   (* an exception nobody caught *)

Record outcome := mkOutcome {
  exit_code : Z;
  stderr : stderr_output;
  final : state
}.

(** [sys.exit()] and a normal return give status 0; [sys.exit(text)] prints
    the text and gives status 1, as does an uncaught exception. *)
Definition run (DEBUG : option string) (w : World) : outcome :=
  match main DEBUG w initial with
  | (Ret _, s) => mkOutcome 0 Silent s
  | (Raise (SystemExit None), s) => mkOutcome 0 Silent s
  | (Raise (SystemExit (Some text)), s) => mkOutcome 1 (Message text) s
  | (Raise (Exc e), s) => mkOutcome 1 (Traceback e) s
  end.

(** ** Vocabulary of the specification *)

(** The result and the events of a computation started in the initial
    state. *)
Definition value {A} (m : M A) : result A := (m initial).1.
Definition effects {A} (m : M A) : list event := log (m initial).2.

(** [m] gives the same result in every state, appends the same events to
    the log and leaves the files alone. *)
Definition steady {A} (m : M A) : Prop :=
  ∀ s, (m s).1 = value m ∧ log (m s).2 = log s ++ effects m
       ∧ files (m s).2 = files s.

(** [m] prints nothing. *)
Definition quiet {A} (m : M A) : Prop :=
  ∀ s, printed (m s).2 = printed s.

(** Two states agree up to the standard output. *)
Definition agree (s1 s2 : state) : Prop :=
  log s1 = log s2 ∧ files s1 = files s2.

(** Two computations agree up to the standard output: from states that
    agree they give the same result and states that agree. *)
Definition magree {A} (m1 m2 : M A) : Prop :=
  ∀ s1 s2, agree s1 s2 →
    (m1 s1).1 = (m2 s2).1 ∧ agree (m1 s1).2 (m2 s2).2.

(** The events by which a run builds and sends an update: the temporary
    file is created and written, nsupdate is launched, the file is
    removed. *)
Definition is_update (ev : event) : bool :=
  match ev with
  | EvTempCreate _ | EvWrite _ _ | EvPopen _ | EvRemove _ => true
  | _ => false
  end.

(** *** The paths of [main] *)

(** The URL [getargs] leaves in [args.remoteiplookup]. *)
Definition lookup_url (a : Args.t) : string :=
  match Args.remoteiplookup a with
  | Some url => url
  | None =>
      if bool_decide (Args.dnstype a = "A") then "https://api.ipify.org"
      else "https://api64.ipify.org"
  end.

Section Paths.

Variable w : World.

(** The three required arguments are there. *)
Definition configured (privkey server hostname : string) : Prop :=
  Args.privkey (parse_args w) = Some privkey
  ∧ Args.server (parse_args w) = Some server
  ∧ Args.hostname (parse_args w) = Some hostname.

Definition the_url : string := lookup_url (parse_args w).
Definition the_type : string := Args.dnstype (parse_args w).

(** The condition under which [main] leaves without an update. *)
Definition unchanged (ip : string) (currentips : list string) : bool :=
  same_set ip currentips && negb (Args.force (parse_args w))
  && negb (Args.deleteonly (parse_args w)).

(** The script [main] has written, and the command it runs on it. *)
Definition script (server hostname ip : string) : string :=
  nsupdate_content server (Str.join "." (tail (Str.split "." hostname)))
    hostname ip (Args.ttl (parse_args w)) the_type
    (Args.deleteonly (parse_args w)).

Definition command (privkey : string) : list string :=
  [Args.exe (parse_args w); "-k"; privkey; "-v"; tmpname w].

(** The events of a run up to the change decision. *)
Definition lookups (privkey server hostname : string) : list event :=
  [EvIsFile privkey; EvHttpGet the_url]
  ++ effects (get_current_ips None w hostname server the_type).

(** The seven ways through [main]: exit status, text on the standard error,
    events, and the files left behind. *)
Inductive path : Z → stderr_output → list event → gmap string string → Prop :=
| path_missing_arg :
    Args.privkey (parse_args w) = None ∨ Args.server (parse_args w) = None
    ∨ Args.hostname (parse_args w) = None →
    path 1 (Message "ERROR: not all args specified") [] ∅
| path_no_key privkey server hostname :
    configured privkey server hostname →
    isfile w privkey = false →
    path 1 (Message "ERROR: key files not found") [EvIsFile privkey] ∅
| path_no_ip privkey server hostname :
    configured privkey server hostname →
    isfile w privkey = true →
    value (get_remote_ip None w the_url the_type) = Ret None →
    path 1 (Message "Invalid IP returned")
      [EvIsFile privkey; EvHttpGet the_url] ∅
| path_unchanged privkey server hostname ip currentips :
    configured privkey server hostname →
    isfile w privkey = true →
    value (get_remote_ip None w the_url the_type) = Ret (Some ip) →
    value (get_current_ips None w hostname server the_type)
      = Ret currentips →
    unchanged ip currentips = true →
    path 0 Silent (lookups privkey server hostname) ∅
| path_launch_failed privkey server hostname ip currentips e :
    configured privkey server hostname →
    isfile w privkey = true →
    value (get_remote_ip None w the_url the_type) = Ret (Some ip) →
    value (get_current_ips None w hostname server the_type)
      = Ret currentips →
    unchanged ip currentips = false →
    popen w (command privkey) = inl e →
    path 1 (Traceback e)
      (lookups privkey server hostname
       ++ [EvTempCreate (tmpname w);
           EvWrite (tmpname w) (script server hostname ip);
           EvPopen (command privkey)])
      {[ tmpname w := script server hostname ip ]}
| path_launched privkey server hostname ip currentips out err rc :
    configured privkey server hostname →
    isfile w privkey = true →
    value (get_remote_ip None w the_url the_type) = Ret (Some ip) →
    value (get_current_ips None w hostname server the_type)
      = Ret currentips →
    unchanged ip currentips = false →
    popen w (command privkey) = inr (out, err, rc) →
    path (if bool_decide (rc ≠ 0) then 1 else 0)
      (if bool_decide (rc ≠ 0)
       then Message ("ERROR: nsupdate failed - " +:+ Repr.repr_bytes out
                     +:+ " / " +:+ Repr.repr_bytes err)
       else Silent)
      (lookups privkey server hostname
       ++ [EvTempCreate (tmpname w);
           EvWrite (tmpname w) (script server hostname ip);
           EvPopen (command privkey);
           EvRemove (tmpname w)])
      ∅.

End Paths.

(** *** The paths of [get_current_ips] *)

(** [dns_lookup] for type A, [dns_lookup6] otherwise *)
Definition query (w : World) (t server hostname : string)
  : exception + list string :=
  if bool_decide (t = "A") then dns_lookup w server hostname
  else dns_lookup6 w server hostname.

Definition rdtype (t : string) : string :=
  if bool_decide (t = "A") then "A" else "AAAA".

Section FetchPaths.

Variable w : World.
Variables hostname server t : string.

(** How the address of the DNS server is obtained: the events, and the
    address if there is one. *)
Inductive resolution : list event → option string → Prop :=
| res_invalid e :
    is_ip server "ANY" = Raise e → resolution [] None
| res_literal :
    is_ip server "ANY" = Ret true → resolution [] (Some server)
| res_failed e :
    is_ip server "ANY" = Ret false →
    getaddrinfo w server 80 = inl e →
    resolution [EvGetAddrInfo server 80] None
| res_empty :
    is_ip server "ANY" = Ret false →
    getaddrinfo w server 80 = inr [] →
    resolution [EvGetAddrInfo server 80] None
| res_resolved infos info :
    is_ip server "ANY" = Ret false →
    getaddrinfo w server 80 = inr infos →
    last infos = Some info →
    resolution [EvGetAddrInfo server 80] (Some (ai_sockaddr_host info)).

(** The records returned, and the events. *)
Inductive fetch_path : list string → list event → Prop :=
| fetch_unresolved evs :
    resolution evs None → fetch_path [] evs
| fetch_failed evs srv e :
    resolution evs (Some srv) →
    query w t srv hostname = inl e →
    fetch_path [] (evs ++ [EvDnsQuery srv hostname (rdtype t)])
| fetch_invalid evs srv recs :
    resolution evs (Some srv) →
    query w t srv hostname = inr recs →
    all_is_ip recs t ≠ Ret true →
    fetch_path [] (evs ++ [EvDnsQuery srv hostname (rdtype t)])
| fetch_answer evs srv recs :
    resolution evs (Some srv) →
    query w t srv hostname = inr recs →
    all_is_ip recs t = Ret true →
    fetch_path recs (evs ++ [EvDnsQuery srv hostname (rdtype t)]).

End FetchPaths.

(** *** The change decision, in the words of the specification *)

(** True if deleteOnly is set, or force is set, or the singleton of the new
    address differs from the current record set. *)
Definition needsUpdate (newIP : string) (currentSet : gset string)
    (force deleteOnly : bool) : bool :=
  deleteOnly || force || bool_decide ({[ newIP ]} ≠ currentSet).

(** *** The dotted-quad shape, in the words of the specification *)

(** Every character of the string satisfies [p]. *)
Fixpoint all_chars (p : ascii → bool) (s : string) : bool :=
  match s with
  | EmptyString => true
  | String c s' => p c && all_chars p s'
  end.

(** One to three decimal digits *)
Definition digit_group (g : string) : bool :=
  (1 <=? String.length g)%nat && (String.length g <=? 3)%nat
  && all_chars Str.is_digit g.

(** Four dot-separated groups of one to three decimal digits *)
Definition dotted_quad (s : string) : bool :=
  match Str.split "." s with
  | [a; b; c; d] =>
      digit_group a && digit_group b && digit_group c && digit_group d
  | _ => false
  end.

(** *** The update transaction, line by line *)

Definition nl : string := String "010" "".

Definition delete_directive (hostname type : string) : string :=
  "update delete " +:+ hostname +:+ ". " +:+ type.

Definition add_directive (hostname : string) (ttl : Z) (type ip : string)
  : string :=
  "update add " +:+ hostname +:+ ". " +:+ pretty ttl +:+ " " +:+ type
  +:+ " " +:+ ip.

(** The transaction as the specification lists it: the add directive is
    there or not, and nothing stands in its place. *)
Definition claimed_transaction (server zone hostname newIP : string)
    (ttl : Z) (type : string) (deleteOnly : bool) : list string :=
  ["server " +:+ server +:+ "."; "debug yes"; "zone " +:+ zone +:+ ".";
   delete_directive hostname type]
  ++ (if deleteOnly then [] else [add_directive hostname ttl type newIP])
  ++ ["show"; "send"; "quit"].

(** The lines the program writes: in a delete-only transaction the line of
    the add directive is empty. *)
Definition written_transaction (server zone hostname newIP : string)
    (ttl : Z) (type : string) (deleteOnly : bool) : list string :=
  ["server " +:+ server +:+ "."; "debug yes"; "zone " +:+ zone +:+ ".";
   delete_directive hostname type;
   if deleteOnly then "" else add_directive hostname ttl type newIP;
   "show"; "send"; "quit"].

(** ** Sample worlds *)

Module Sample.

Definition key : string := "/etc/ddns/Khome.+157+10183.key".

Definition args : Args.t :=
  Args.mk "/usr/bin/nsupdate" (Some key) (Some "ns1.example.net") false 300
    (Some "host.example.com") "A" false None.

Definition ns1 : addrinfo :=
  {| ai_family := 2; ai_socktype := 1; ai_proto := 6; ai_canonname := "";
     ai_sockaddr_host := "192.0.2.53" |}.

(** A world made of the parsed arguments, the body the echo service
    answers with, what the resolver gives for the name of the server, the
    records the DNS server answers with, and what launching nsupdate
    gives. *)
Definition world (a : Args.t) (body : exception + string)
    (addresses : exception + list addrinfo)
    (records : exception + list string)
    (nsupdate : exception + (bytes * bytes * Z)) : World :=
  {| parse_args := a;
     isfile := λ path, bool_decide (path = key);
     http_get := λ _, body;
     getaddrinfo := λ _ _, addresses;
     dns_lookup := λ _ _, records;
     dns_lookup6 := λ _ _, records;
     tmpname := "/tmp/tmpq3x8z1vd";
     popen := λ _, nsupdate |}.

Definition succeeded : exception + (bytes * bytes * Z) := inr ([], [], 0).

(** The address has changed and the update goes through. *)
Definition moved : World :=
  world args (inr "203.0.113.5
") (inr [ns1]) (inr ["198.51.100.7"]) succeeded.

(** The published record is the address of the host. *)
Definition settled : World :=
  world args (inr "198.51.100.7
") (inr [ns1]) (inr ["198.51.100.7"]) succeeded.

(** The echo service cannot be reached. *)
Definition offline : World :=
  world args (inl (LibraryError "MaxRetryError" "Max retries exceeded"))
    (inr [ns1]) (inr ["198.51.100.7"]) succeeded.




(** nsupdate is not installed where [--exe] says. *)
Definition no_nsupdate : World :=
  world args (inr "203.0.113.5
") (inr [ns1]) (inr ["198.51.100.7"])
    (inl (OSError "[Errno 2] No such file or directory: '/usr/bin/nsupdate'")).

(** nsupdate runs and the server refuses the update. *)
Definition refused : World :=
  world args (inr "203.0.113.5
") (inr [ns1]) (inr ["198.51.100.7"])
    (inr (String.list_byte_of_string "Outgoing update query:",
          String.list_byte_of_string "update failed: REFUSED", 2)).

(** No key is given. *)
Definition keyless : World :=
  world (Args.mk "/usr/bin/nsupdate" None (Some "ns1.example.net") false 300
           (Some "host.example.com") "A" false None)
    (inr "203.0.113.5
") (inr [ns1]) (inr ["198.51.100.7"]) succeeded.

(** The DNS server is given by a dotted quad that is no address. *)
Definition odd_server : World :=
  world (Args.mk "/usr/bin/nsupdate" (Some key) (Some "999.1.1.1") false 300
           (Some "host.example.com") "A" false None)
    (inr "203.0.113.5
") (inr [ns1]) (inr ["198.51.100.7"]) succeeded.

End Sample.

(** ** The kinds of action of a run, in the order of the program *)

Inductive kind :=
| KIsFile | KHttpGet | KGetAddrInfo | KDnsQuery
| KTempCreate | KWrite | KPopen | KRemove.

Definition kind_of (ev : event) : kind :=
  match ev with
  | EvIsFile _ => KIsFile
  | EvHttpGet _ => KHttpGet
  | EvGetAddrInfo _ _ => KGetAddrInfo
  | EvDnsQuery _ _ _ => KDnsQuery
  | EvTempCreate _ => KTempCreate
  | EvWrite _ _ => KWrite
  | EvPopen _ => KPopen
  | EvRemove _ => KRemove
  end.

Definition program_order : list kind :=
  [KIsFile; KHttpGet; KGetAddrInfo; KDnsQuery;
   KTempCreate; KWrite; KPopen; KRemove].

(** No character of the string is a newline. *)
Definition one_line (s : string) : bool :=
  all_chars (λ c, negb (bool_decide (c = "010"%char))) s.

(** No character of the string is a dot. *)
Definition dotless (s : string) : bool :=
  all_chars (λ c, negb (bool_decide (c = "."%char))) s.

(** A line that begins as the add directive of the program does. *)
Definition is_add_directive (line : string) : bool :=
  String.prefix "update add" line.

(** What [run_nsupdate] prints of the two captured streams. *)
Definition streams_text (out err : bytes) : string :=
  Repr.repr_bytes out +:+ "

" +:+ Repr.repr_bytes err +:+ "
".

(** A resolver that returns two addresses for the server. *)
Definition two_addresses : World :=
  Sample.world Sample.args (inr "203.0.113.5
")
    (inr [ {| ai_family := 10; ai_socktype := 1; ai_proto := 6;
              ai_canonname := ""; ai_sockaddr_host := "2001:db8::53" |};
           Sample.ns1 ])
    (inr ["198.51.100.7"]) Sample.succeeded.

(** The host name has one label. *)
Definition single_label : World :=
  Sample.world
    (Args.mk "/usr/bin/nsupdate" (Some Sample.key) (Some "192.0.2.53") false
       300 (Some "localhost") "A" false None)
    (inr "203.0.113.5
") (inr [Sample.ns1]) (inr []) Sample.succeeded.

(** The resolver knows the name of the server and has no address for it. *)
Definition no_address : World :=
  Sample.world Sample.args (inr "203.0.113.5
") (inr []) (inr ["198.51.100.7"]) Sample.succeeded.

(** [IPDEBUG] is set to the empty string. *)
Definition empty_debug : option string := Some "".

(** ** The command line

    [parser.parse_args()] does not return for every command line.  argparse
    ends the program itself: with status 2, after the usage and an error
    message on the standard error, when it refuses an argument (a record
    type that is not a choice, a TTL that is no integer, an unknown option),
    and with status 0, after the help text on the standard output, for
    [-h].  [parse_args] of a [World] is what it returns when it returns;
    [stop] is the way argparse ends the program when it does not. *)
Inductive argparse_exit :=
| ArgumentError (message : string)
| HelpRequested (text : string).

Definition invocation (DEBUG : option string) (stop : option argparse_exit)
    (w : World) : outcome :=
  match stop with
  | Some (ArgumentError message) => mkOutcome 2 (Message message) initial
  | Some (HelpRequested text) => mkOutcome 0 Silent (mkState [text] [] ∅)
  | None => run DEBUG w
  end.

(** * Proofs *)

(** ** Strings *)

Lemma append_nil_l (s : string) : "" +:+ s = s.
Proof. reflexivity. Qed.

Lemma append_cons (c : ascii) (s1 s2 : string) :
  String c s1 +:+ s2 = String c (s1 +:+ s2).
Proof. reflexivity. Qed.

Lemma match_rep_sound a k g : ∀ lo room st rest,
  all_chars (Re.atom_matches a) g = true →
  (lo ≤ String.length g)%nat → (String.length g ≤ room)%nat →
  k (match g with EmptyString => st | _ => false end) rest = true →
  Re.match_rep a k lo room st (g +:+ rest) = true.
Proof.
  induction g as [|c g IH]; intros lo room st rest Hall Hlo Hroom Hk.
  - rewrite append_nil_l. simpl in *. assert (lo = 0)%nat as -> by lia.
    destruct room; simpl; [done|]. destruct rest; simpl; [done|].
    rewrite Hk. by rewrite orb_true_r.
  - rewrite append_cons. simpl in *. apply andb_prop in Hall as [Hc Hall].
    destruct room as [|room]; [lia|]. simpl.
    rewrite Hc. simpl.
    rewrite (IH (pred lo) room false rest); [done|done|lia|lia|].
    by destruct g.
Qed.

Lemma match_rep_complete a k : ∀ room lo st s,
  Re.match_rep a k lo room st s = true →
  ∃ g rest, s = g +:+ rest
    ∧ all_chars (Re.atom_matches a) g = true
    ∧ (lo ≤ String.length g)%nat ∧ (String.length g ≤ room)%nat
    ∧ k (match g with EmptyString => st | _ => false end) rest = true.
Proof.
  induction room as [|room IH]; intros lo st s H.
  - simpl in H. destruct lo; [|by destruct s].
    exists "", s. repeat split; simpl; auto.
  - simpl in H. apply orb_prop in H as [H|H].
    + destruct s as [|c s]; [done|].
      apply andb_prop in H as [Hc H].
      apply IH in H as (g & rest & -> & Hall & Hlo & Hroom & Hk).
      exists (String c g), rest. simpl. rewrite Hc, Hall.
      repeat split; [lia|lia|]. by destruct g.
    + destruct lo; [|done]. exists "", s. repeat split; simpl; auto. lia.
Qed.

Lemma digit_not_dot c : Str.is_digit c = true → c ≠ "."%char.
Proof. intros H ->. done. Qed.

Lemma split_no_sep sep s :
  all_chars (λ c, negb (bool_decide (c = sep))) s = true →
  Str.split sep s = [s].
Proof.
  induction s as [|c s IH]; simpl; [done|].
  intros [Hc Hs]%andb_prop. rewrite (IH Hs).
  destruct (decide (c = sep)) as [->|]; [|done].
  by rewrite bool_decide_eq_true_2 in Hc.
Qed.

Lemma split_app sep a rest :
  all_chars (λ c, negb (bool_decide (c = sep))) a = true →
  Str.split sep (a +:+ String sep rest) = a :: Str.split sep rest.
Proof.
  induction a as [|c a IH]; intros H.
  - rewrite append_nil_l. simpl. by rewrite decide_True.
  - rewrite append_cons. simpl in *. apply andb_prop in H as [Hc Ha].
    rewrite (IH Ha). destruct (decide (c = sep)) as [->|]; [|done].
    by rewrite bool_decide_eq_true_2 in Hc.
Qed.

Lemma split_not_nil sep s : Str.split sep s ≠ [].
Proof.
  destruct s as [|c s]; simpl; [done|].
  destruct (decide (c = sep)); [done|]. by destruct (Str.split sep s).
Qed.

Lemma join_cons_cons sep a b l :
  Str.join sep (a :: b :: l) = a +:+ sep +:+ Str.join sep (b :: l).
Proof. reflexivity. Qed.

(** [sep.join(s.split(sep)) == s] *)
Lemma join_split sep s : Str.join (String sep "") (Str.split sep s) = s.
Proof.
  induction s as [|c s IH]; simpl; [done|].
  destruct (decide (c = sep)) as [->|].
  - pose proof (split_not_nil sep s).
    destruct (Str.split sep s) as [|w ws] eqn:E; [done|].
    rewrite join_cons_cons, append_nil_l, append_cons, append_nil_l.
    by rewrite IH.
  - pose proof (split_not_nil sep s).
    destruct (Str.split sep s) as [|w ws] eqn:E; [done|].
    destruct ws as [|w' ws]; [simpl in *; congruence|].
    rewrite join_cons_cons in *. rewrite append_cons. congruence.
Qed.

Lemma all_chars_impl (p q : ascii → bool) s :
  (∀ c, p c = true → q c = true) →
  all_chars p s = true → all_chars q s = true.
Proof.
  intros Hpq. induction s as [|c s IH]; simpl; [done|].
  intros [Hc Hs]%andb_prop. by rewrite (Hpq c Hc), IH.
Qed.

Lemma digit_group_no_dot g :
  digit_group g = true →
  all_chars (λ c, negb (bool_decide (c = "."%char))) g = true.
Proof.
  unfold digit_group. intros [_ H]%andb_prop. revert H.
  apply all_chars_impl. intros c Hc.
  by rewrite bool_decide_eq_false_2 by by apply digit_not_dot.
Qed.

Lemma digit_group_spec g :
  digit_group g = true ↔
  all_chars (Re.atom_matches Re.Digit) g = true
  ∧ (1 ≤ String.length g)%nat ∧ (String.length g ≤ 3)%nat.
Proof.
  unfold digit_group. rewrite !andb_true_iff, Nat.leb_le, Nat.leb_le.
  simpl. tauto.
Qed.

(** The strings of the dotted-quad shape, spelled out *)
Lemma dotted_quad_spec s :
  dotted_quad s = true ↔
  ∃ a b c d,
    digit_group a = true ∧ digit_group b = true ∧ digit_group c = true
    ∧ digit_group d = true
    ∧ s = a +:+ "." +:+ b +:+ "." +:+ c +:+ "." +:+ d.
Proof.
  unfold dotted_quad. split.
  - pose proof (join_split "." s) as Hj.
    destruct (Str.split "." s) as [|a [|b [|c [|d [|? ?]]]]]; try done.
    rewrite !andb_true_iff. intros [[[Ha Hb] Hc] Hd].
    exists a, b, c, d. repeat split; first [done | by rewrite <- Hj].
  - intros (a & b & c & d & Ha & Hb & Hc & Hd & ->).
    rewrite !(append_cons "." "" _), !append_nil_l.
    rewrite !split_app by by apply digit_group_no_dot.
    rewrite split_no_sep by by apply digit_group_no_dot.
    by rewrite Ha, Hb, Hc, Hd.
Qed.

Lemma at_end_spec s :
  Re.at_end s = true ↔ s = "" ∨ s = String "010" "".
Proof.
  unfold Re.at_end. destruct s as [|c [|c' s]].
  - split; auto.
  - rewrite bool_decide_eq_true. split; [intros ->; auto|].
    by intros [|[=]].
  - split; [done|]. by intros [|].
Qed.

Lemma lit_group c g :
  all_chars (Re.atom_matches (Re.Lit c)) g = true →
  (1 ≤ String.length g)%nat → (String.length g ≤ 1)%nat →
  g = String c "".
Proof.
  destruct g as [|c' [|c'' g]]; simpl; try lia.
  rewrite andb_true_r, bool_decide_eq_true. by intros ->.
Qed.

Lemma lit_group_matches c :
  all_chars (Re.atom_matches (Re.Lit c)) (String c "") = true.
Proof. simpl. by rewrite bool_decide_eq_true_2. Qed.

(** What the pattern accepts: a dotted quad, or a dotted quad followed by
    one newline. *)
Lemma is_ipv4_spec s :
  is_ipv4 s = true ↔
  ∃ a b c d tl,
    digit_group a = true ∧ digit_group b = true ∧ digit_group c = true
    ∧ digit_group d = true ∧ (tl = "" ∨ tl = String "010" "")
    ∧ s = a +:+ "." +:+ b +:+ "." +:+ c +:+ "." +:+ d +:+ tl.
Proof.
  unfold is_ipv4, Re.re_match, ipv4_pattern. cbn [Re.match_here andb].
  split.
  - intros H.
    apply match_rep_complete in H as (a & r1 & -> & Ha & Ha1 & Ha3 & H).
    apply match_rep_complete in H as (p1 & r2 & -> & Hp1 & ? & ? & H).
    apply lit_group in Hp1 as ->; [|done..].
    apply match_rep_complete in H as (b & r3 & -> & Hb & Hb1 & Hb3 & H).
    apply match_rep_complete in H as (p2 & r4 & -> & Hp2 & ? & ? & H).
    apply lit_group in Hp2 as ->; [|done..].
    apply match_rep_complete in H as (c & r5 & -> & Hc & Hc1 & Hc3 & H).
    apply match_rep_complete in H as (p3 & r6 & -> & Hp3 & ? & ? & H).
    apply lit_group in Hp3 as ->; [|done..].
    apply match_rep_complete in H as (d & tl & -> & Hd & Hd1 & Hd3 & H).
    apply andb_prop in H as [H _]. apply at_end_spec in H.
    exists a, b, c, d, tl. rewrite !digit_group_spec. done.
  - intros (a & b & c & d & tl & Ha & Hb & Hc & Hd & Htl & ->).
    apply digit_group_spec in Ha as (Ha & ? & ?).
    apply digit_group_spec in Hb as (Hb & ? & ?).
    apply digit_group_spec in Hc as (Hc & ? & ?).
    apply digit_group_spec in Hd as (Hd & ? & ?).
    repeat (apply match_rep_sound;
            [first [done | apply lit_group_matches] | simpl; lia..|]).
    rewrite andb_true_r. apply at_end_spec. done.
Qed.

Lemma append_assoc (s1 s2 s3 : string) :
  (s1 +:+ s2) +:+ s3 = s1 +:+ (s2 +:+ s3).
Proof.
  induction s1 as [|c s1 IH]; [done|]. by rewrite !append_cons, IH.
Qed.

Lemma append_nil_r (s : string) : s +:+ "" = s.
Proof.
  induction s as [|c s IH]; [done|]. by rewrite append_cons, IH.
Qed.

Lemma dotted_quad_is_ipv4 s : dotted_quad s = true → is_ipv4 s = true.
Proof.
  intros (a & b & c & d & Ha & Hb & Hc & Hd & ->)%dotted_quad_spec.
  apply is_ipv4_spec. exists a, b, c, d, "".
  rewrite append_nil_r. auto 10.
Qed.

(** The amended form of the shape requirement: what [is_ipv4] accepts is a
    dotted quad, or a dotted quad followed by one newline. *)
Lemma is_ipv4_shape s :
  is_ipv4 s = true ↔
  dotted_quad s = true
  ∨ ∃ q, s = q +:+ String "010" "" ∧ dotted_quad q = true.
Proof.
  rewrite is_ipv4_spec. split.
  - intros (a & b & c & d & tl & Ha & Hb & Hc & Hd & [->| ->] & ->).
    + left. apply dotted_quad_spec. exists a, b, c, d.
      by rewrite append_nil_r.
    + right. exists (a +:+ "." +:+ b +:+ "." +:+ c +:+ "." +:+ d). split.
      * by rewrite !append_assoc.
      * apply dotted_quad_spec. by exists a, b, c, d.
  - intros [H|(q & -> & H)];
      apply dotted_quad_spec in H as (a & b & c & d & Ha & Hb & Hc & Hd & ->);
      exists a, b, c, d.
    + exists "". rewrite append_nil_r. auto 10.
    + exists (String "010" ""). rewrite !append_assoc. auto 10.
Qed.


(** ** The update transaction *)

Lemma nsupdate_content_lines server zone hostname newIP ttl type deleteOnly :
  nsupdate_content server zone hostname newIP ttl type deleteOnly
  = Str.join nl
      (written_transaction server zone hostname newIP ttl type deleteOnly).
Proof.
  unfold nsupdate_content, written_transaction, delete_directive,
    add_directive, nl.
  rewrite !join_cons_cons. cbn [Str.join].
  rewrite !append_assoc. 
  destruct deleteOnly; rewrite ?append_assoc; reflexivity.
Qed.

Lemma strip_label label rest :
  all_chars (λ c, negb (bool_decide (c = "."%char))) label = true →
  Str.join "." (tail (Str.split "." (label +:+ "." +:+ rest))) = rest.
Proof.
  intros H. rewrite (append_cons "." "" _), append_nil_l.
  rewrite split_app by done. simpl. apply join_split.
Qed.


(** ** Runs that differ in what they print *)

Section Agree.

Context {A B : Type}.

Lemma magree_ret (a : A) : magree (mret a) (mret a).
Proof. intros s1 s2 H. done. Qed.

Lemma magree_raise (e : base_exception) : magree (@raise A e) (raise e).
Proof. intros s1 s2 H. done. Qed.

Lemma magree_lift (r : result A) : magree (lift r) (lift r).
Proof. intros s1 s2 H. done. Qed.

Lemma magree_answer (r : exception + A) : magree (answer r) (answer r).
Proof. destruct r; [apply magree_raise | apply magree_ret]. Qed.

Lemma magree_bind (m1 m2 : M A) (f1 f2 : A → M B) :
  magree m1 m2 → (∀ a, magree (f1 a) (f2 a)) →
  magree (m1 ≫= f1) (m2 ≫= f2).
Proof.
  intros Hm Hf s1 s2 H. unfold mbind, M_bind.
  destruct (Hm s1 s2 H) as [Hr Hs].
  destruct (m1 s1) as [[a1|e1] s1'], (m2 s2) as [[a2|e2] s2'];
    simplify_eq/=; auto.
  by apply Hf.
Qed.

Lemma magree_try_except_Exception (m1 m2 : M A) (h1 h2 : exception → M A) :
  magree m1 m2 → (∀ e, magree (h1 e) (h2 e)) →
  magree (try_except_Exception m1 h1) (try_except_Exception m2 h2).
Proof.
  intros Hm Hh s1 s2 H. unfold try_except_Exception.
  destruct (Hm s1 s2 H) as [Hr Hs].
  destruct (m1 s1) as [[a1|[x1|e1]] s1'], (m2 s2) as [[a2|[x2|e2]] s2'];
    simplify_eq/=; auto.
  by apply Hh.
Qed.

Lemma magree_try_except (m1 m2 h1 h2 : M A) :
  magree m1 m2 → magree h1 h2 →
  magree (try_except m1 h1) (try_except m2 h2).
Proof.
  intros Hm Hh s1 s2 H. unfold try_except.
  destruct (Hm s1 s2 H) as [Hr Hs].
  destruct (m1 s1) as [[a1|e1] s1'], (m2 s2) as [[a2|e2] s2'];
    simplify_eq/=; auto.
Qed.

End Agree.

Lemma magree_emit ev : magree (emit ev) (emit ev).
Proof. intros s1 s2 [Hl Hf]. split; [done|]. split; simpl; congruence. Qed.

Lemma magree_update_files f : magree (update_files f) (update_files f).
Proof. intros s1 s2 [Hl Hf]. split; [done|]. split; simpl; congruence. Qed.

Lemma magree_os_remove path : magree (os_remove path) (os_remove path).
Proof.
  apply magree_bind; [apply magree_emit | intros _; apply magree_update_files].
Qed.

Lemma magree_assert b : magree (assert b) (assert b).
Proof. destruct b; [apply magree_ret | apply magree_raise]. Qed.

Lemma magree_sys_exit {A} arg : magree (@sys_exit A arg) (sys_exit arg).
Proof. apply magree_raise. Qed.

(** Printing, or not printing, any two texts. *)
Lemma magree_print b1 b2 t1 t2 :
  magree (when b1 (print t1)) (when b2 (print t2)).
Proof. intros s1 s2 [Hl Hf]. by destruct b1, b2. Qed.

Lemma magree_last_item {A} (l : list A) : magree (last_item l) (last_item l).
Proof.
  unfold last_item. destruct (last l); [apply magree_ret | apply magree_raise].
Qed.

Create HintDb agree discriminated.
#[local] Hint Resolve magree_ret magree_raise magree_lift magree_answer
  magree_emit magree_update_files magree_os_remove magree_assert
  magree_sys_exit magree_print magree_last_item : agree.

(** Decompose a goal [magree m1 m2] along the structure of the program. *)
Ltac agree_step :=
  match goal with
  | |- magree (_ ≫= _) (_ ≫= _) => apply magree_bind; [|intros ?]
  | |- magree (try_except_Exception _ _) (try_except_Exception _ _) =>
      apply magree_try_except_Exception; [|intros ?]
  | |- magree (try_except _ _) (try_except _ _) => apply magree_try_except
  | |- magree (if ?b then _ else _) (if ?b then _ else _) => destruct b
  | |- magree (match ?x with _ => _ end) (match ?x with _ => _ end) =>
      destruct x
  | |- magree _ _ => solve [auto with agree]
  end.

Section DebugIrrelevant.

Variables d1 d2 : option string.
Variable w : World.

Lemma getargs_agree : magree (getargs d1 w) (getargs d2 w).
Proof. unfold getargs. repeat agree_step. Qed.

Lemma create_nsupdate_contents_agree server domain hostname newip ttl
    dnstype deleteonly :
  magree
    (create_nsupdate_contents d1 w server domain hostname newip ttl
       dnstype deleteonly)
    (create_nsupdate_contents d2 w server domain hostname newip ttl
       dnstype deleteonly).
Proof. unfold create_nsupdate_contents. repeat agree_step. Qed.

Lemma run_nsupdate_agree exe privkey conffile :
  magree (run_nsupdate d1 w exe privkey conffile)
         (run_nsupdate d2 w exe privkey conffile).
Proof. unfold run_nsupdate. repeat agree_step. Qed.

Lemma get_remote_ip_agree url dnstype :
  magree (get_remote_ip d1 w url dnstype) (get_remote_ip d2 w url dnstype).
Proof. unfold get_remote_ip. repeat agree_step. Qed.

Lemma get_current_ips_agree hostname server dnstype :
  magree (get_current_ips d1 w hostname server dnstype)
         (get_current_ips d2 w hostname server dnstype).
Proof. unfold get_current_ips. repeat agree_step. Qed.

Lemma main_agree : magree (main d1 w) (main d2 w).
Proof.
  unfold main.
  repeat first
    [ apply get_remote_ip_agree | apply get_current_ips_agree
    | apply create_nsupdate_contents_agree | apply run_nsupdate_agree
    | apply getargs_agree | agree_step ].
Qed.

End DebugIrrelevant.

(** The outcome of a run, the standard output apart, is that of the run
    with [IPDEBUG] unset. *)
Lemma run_agree d1 d2 w :
  exit_code (run d1 w) = exit_code (run d2 w)
  ∧ stderr (run d1 w) = stderr (run d2 w)
  ∧ log (final (run d1 w)) = log (final (run d2 w))
  ∧ files (final (run d1 w)) = files (final (run d2 w)).
Proof.
  unfold run.
  destruct (main_agree d1 d2 w initial initial) as [Hr [Hl Hf]]; [done|].
  destruct (main d1 w initial) as [[[]|[[t1|]|e1]] s1],
           (main d2 w initial) as [[[]|[[t2|]|e2]] s2]; simplify_eq/=; done.
Qed.

(** ** Results that do not depend on the state *)

Section Steady.
Context {A B : Type}.

Lemma steady_ret (a : A) : steady (mret a).
Proof. intros s. unfold value, effects. simpl. by rewrite app_nil_r. Qed.

Lemma steady_raise (e : base_exception) : steady (@raise A e).
Proof. intros s. unfold value, effects. simpl. by rewrite app_nil_r. Qed.

Lemma steady_lift (r : result A) : steady (lift r).
Proof. intros s. unfold value, effects. simpl. by rewrite app_nil_r. Qed.

Lemma steady_answer (r : exception + A) : steady (answer r).
Proof. destruct r; [apply steady_raise | apply steady_ret]. Qed.

Lemma steady_bind (m : M A) (f : A → M B) :
  steady m → (∀ a, steady (f a)) → steady (m ≫= f).
Proof.
  intros Hm Hf s. unfold value, effects, mbind, M_bind.
  destruct (Hm s) as (Hr & Hl & Hfs). destruct (Hm initial) as (Hr0 & Hl0 & Hfs0).
  unfold value, effects in *.
  destruct (m s) as [r s'], (m initial) as [r0 s0]. simpl in *. subst r.
  destruct r0 as [a|e]; simpl.
  - destruct (Hf a s') as (-> & -> & ->). destruct (Hf a s0) as (-> & -> & _).
    by rewrite Hl, Hfs, app_assoc.
  - done.
Qed.

Lemma steady_try_except_Exception (m : M A) (h : exception → M A) :
  steady m → (∀ e, steady (h e)) → steady (try_except_Exception m h).
Proof.
  intros Hm Hh s. unfold value, effects, try_except_Exception.
  destruct (Hm s) as (Hr & Hl & Hfs). destruct (Hm initial) as (Hr0 & Hl0 & Hfs0).
  unfold value, effects in *.
  destruct (m s) as [r s'], (m initial) as [r0 s0]. simpl in *. subst r.
  destruct r0 as [a|[x|e]]; simpl; [done..|].
  destruct (Hh e s') as (-> & -> & ->). destruct (Hh e s0) as (-> & -> & _).
  by rewrite Hl, Hfs, app_assoc.
Qed.

Lemma steady_try_except (m h : M A) :
  steady m → steady h → steady (try_except m h).
Proof.
  intros Hm Hh s. unfold value, effects, try_except.
  destruct (Hm s) as (Hr & Hl & Hfs). destruct (Hm initial) as (Hr0 & Hl0 & Hfs0).
  unfold value, effects in *.
  destruct (m s) as [r s'], (m initial) as [r0 s0]. simpl in *. subst r.
  destruct r0 as [a|e]; simpl; [done|].
  destruct (Hh s') as (-> & -> & ->). destruct (Hh s0) as (-> & -> & _).
  by rewrite Hl, Hfs, app_assoc.
Qed.
End Steady.

Lemma steady_emit ev : steady (emit ev).
Proof. intros s. done. Qed.

Lemma steady_print b t : steady (when b (print t)).
Proof. intros s. destruct b; unfold value, effects; simpl; by rewrite app_nil_r. Qed.

Lemma steady_assert b : steady (assert b).
Proof. destruct b; [apply steady_ret | apply steady_raise]. Qed.

Lemma steady_last_item {A} (l : list A) : steady (last_item l).
Proof.
  unfold last_item. destruct (last l); [apply steady_ret | apply steady_raise].
Qed.

Create HintDb steady discriminated.
#[local] Hint Resolve steady_ret steady_raise steady_lift steady_answer
  steady_emit steady_print steady_assert steady_last_item : steady.

Ltac steady_step :=
  match goal with
  | |- steady (_ ≫= _) => apply steady_bind; [|intros ?]
  | |- steady (try_except_Exception _ _) =>
      apply steady_try_except_Exception; [|intros ?]
  | |- steady (try_except _ _) => apply steady_try_except
  | |- steady (if ?b then _ else _) => destruct b
  | |- steady (match ?x with _ => _ end) => destruct x
  | |- steady _ => solve [auto with steady]
  end.

Lemma getargs_steady d w : steady (getargs d w).
Proof. unfold getargs. repeat steady_step. Qed.

Lemma get_remote_ip_steady d w url t : steady (get_remote_ip d w url t).
Proof. unfold get_remote_ip. repeat steady_step. Qed.

Lemma get_current_ips_steady d w h srv t : steady (get_current_ips d w h srv t).
Proof. unfold get_current_ips. repeat steady_step. Qed.

Lemma run_nsupdate_steady d w exe k f : steady (run_nsupdate d w exe k f).
Proof. unfold run_nsupdate. repeat steady_step. Qed.

Lemma steady_run {A} (m : M A) s :
  steady m →
  ∃ s', m s = (value m, s') ∧ log s' = log s ++ effects m
        ∧ files s' = files s.
Proof.
  intros H. destruct (H s) as (Hr & Hl & Hf).
  exists (m s).2. rewrite <- Hr. by destruct (m s).
Qed.

Lemma is_ipv6_raises ip e :
  is_ipv6 ip = Raise e → e = Exc (ValueError "embedded null character").
Proof.
  unfold is_ipv6, socket_inet_pton6.
  destruct (Str.has_nul ip); [|destruct (Libc.inet_pton6 ip)]; naive_solver.
Qed.

Lemma is_ip_raises ip t e :
  is_ip ip t = Raise e → e = Exc (ValueError "embedded null character").
Proof.
  unfold is_ip. repeat case_match; eauto using is_ipv6_raises; done.
Qed.

Lemma all_is_ip_raises ips t e :
  all_is_ip ips t = Raise e → e = Exc (ValueError "embedded null character").
Proof.
  induction ips as [|ip ips IH]; simpl; [done|].
  destruct (is_ip ip t) as [[|]|e'] eqn:H; eauto; [done|].
  intros [= ->]. by eapply is_ip_raises.
Qed.


Lemma bind_run {A B} (m : M A) (f : A → M B) s r s' :
  m s = (r, s') →
  (m ≫= f) s = match r with Ret a => f a s' | Raise e => (Raise e, s') end.
Proof. intros H. unfold mbind, M_bind. by rewrite H. Qed.

Lemma get_remote_ip_returns d w url t : ∃ r, value (get_remote_ip d w url t) = Ret r.
Proof.
  unfold value, get_remote_ip, try_except_Exception, mbind, M_bind.
  simpl. destruct (answer (http_get w url) _) as [[data|[x|e]] s] eqn:H.
  - unfold lift. destruct (is_ip (Str.strip data) t) as [[|]|[x|e]] eqn:Hip; simpl; eauto.
    + destruct (truthy d); simpl; eauto.
    + by apply is_ip_raises in Hip.
    + destruct (truthy d); simpl; eauto.
  - destruct (http_get w url); simpl in H; simplify_eq.
  - destruct (truthy d); simpl; eauto.
Qed.

Lemma get_remote_ip_effects d w url t : effects (get_remote_ip d w url t) = [EvHttpGet url].
Proof.
  unfold effects, get_remote_ip, try_except_Exception, mbind, M_bind.
  simpl. destruct (http_get w url) as [e|data]; simpl.
  - by destruct (truthy d).
  - unfold lift. destruct (is_ip (Str.strip data) t) as [[|]|[x|e]] eqn:Hip; simpl; try done.
    all: by destruct (truthy d).
Qed.

Lemma get_current_ips_returns d w h srv t : ∃ r, value (get_current_ips d w h srv t) = Ret r.
Proof.
  unfold value, get_current_ips, try_except, mbind at 1, M_bind at 1.
  match goal with |- context [match ?m initial with _ => _ end] => 
    destruct (m initial) as [[r|e] s] end.
  all: unfold mbind, M_bind; destruct (truthy d); simpl; eauto.
Qed.

Lemma getargs_None w s :
  ∃ a, getargs None w s = (Ret a, s)
    ∧ Args.exe a = Args.exe (parse_args w)
    ∧ Args.privkey a = Args.privkey (parse_args w)
    ∧ Args.server a = Args.server (parse_args w)
    ∧ Args.force a = Args.force (parse_args w)
    ∧ Args.ttl a = Args.ttl (parse_args w)
    ∧ Args.hostname a = Args.hostname (parse_args w)
    ∧ Args.dnstype a = Args.dnstype (parse_args w)
    ∧ Args.deleteonly a = Args.deleteonly (parse_args w)
    ∧ Args.remoteiplookup a = Some (the_url w).
Proof.
  unfold getargs, the_url, lookup_url. simpl.
  destruct (parse_args w) as [? ? ? ? ? ? t ? [u|]]; simpl.
  - eexists; split; [reflexivity|]. simpl. tauto.
  - destruct (bool_decide (t = "A")); (eexists; split; [reflexivity|]); simpl; tauto.
Qed.

Lemma emit_bind {B} ev (f : () → M B) s :
  (emit ev ≫= f) s = f () (mkState (printed s) (log s ++ [ev]) (files s)).
Proof. reflexivity. Qed.

Lemma update_files_bind {B} g (f : () → M B) s :
  (update_files g ≫= f) s = f () (mkState (printed s) (log s) (g (files s))).
Proof. reflexivity. Qed.

Lemma ret_bind {A B} (a : A) (f : A → M B) s : (mret a ≫= f) s = f a s.
Proof. reflexivity. Qed.

Lemma main_path w :
  path w (exit_code (run None w)) (stderr (run None w))
    (log (final (run None w))) (files (final (run None w))).
Proof.
  unfold run, main.
  destruct (getargs_None w initial)
    as (a & Ha & Hexe & Hkey & Hsrv & Hforce & Httl & Hhost & Htype & Hdel & Hurl).
  rewrite (bind_run _ _ _ _ _ Ha).
  rewrite Hkey, Hsrv, Hhost, Hurl, Htype, Hexe, Httl, Hdel, Hforce. simpl.
  destruct (Args.privkey (parse_args w)) as [privkey|] eqn:Epriv;
    [|apply path_missing_arg; auto].
  destruct (Args.server (parse_args w)) as [server|] eqn:Eserver;
    [|apply path_missing_arg; auto].
  destruct (Args.hostname (parse_args w)) as [hostname|] eqn:Ehost;
    [|apply path_missing_arg; auto].
  assert (Hconf : configured w privkey server hostname) by done.
  rewrite emit_bind.
  destruct (isfile w privkey) eqn:Hfile; simpl;
    [|by eapply path_no_key].
  match goal with |- context [get_remote_ip None w ?u ?t ≫= _] =>
    destruct (steady_run (get_remote_ip None w u t)
                (mkState [] [EvIsFile privkey] ∅)
                (get_remote_ip_steady _ _ _ _)) as (s1 & Hs1 & Hl1 & Hf1)
  end.
  rewrite (bind_run _ _ _ _ _ Hs1).
  rewrite get_remote_ip_effects in Hl1. simpl in Hl1, Hf1.
  fold (the_type w) in *.
  destruct (get_remote_ip_returns None w (the_url w) (the_type w)) as [[ip|] Hip];
    rewrite Hip; simpl; rewrite ?Hl1, ?Hf1; [|by eapply path_no_ip].
  destruct (steady_run (get_current_ips None w hostname server (the_type w)) s1
              (get_current_ips_steady _ _ _ _ _)) as (s2 & Hs2 & Hl2 & Hf2).
  rewrite (bind_run _ _ _ _ _ Hs2).
  destruct (get_current_ips_returns None w hostname server (the_type w))
    as [currentips Hcur].
  rewrite Hcur. rewrite Hl1 in Hl2. rewrite Hf1 in Hf2.
  fold (unchanged w ip currentips).
  destruct (unchanged w ip currentips) eqn:Hun; simpl.
  { rewrite Hl2, Hf2. by eapply path_unchanged. }
  fold (script w server hostname ip).
  unfold create_nsupdate_contents, run_nsupdate, os_remove.
  cbv [mbind M_bind mret M_ret emit update_files when truthy andb is_not_None].
  cbn [printed log files].
  fold (command w privkey).
  destruct (popen w (command w privkey)) as [e|[[out err] rc]] eqn:Hpopen;
    cbn -[bool_decide].
  - rewrite Hl2, Hf2, insert_insert_eq, <- !app_assoc. simpl.
    by eapply path_launch_failed.
  - rewrite Hl2, Hf2, insert_insert_eq, delete_insert_eq, delete_empty,
      <- !app_assoc.
    pose proof (path_launched w _ _ _ _ _ _ _ _ Hconf Hfile Hip Hcur Hun Hpopen) as P.
    destruct (bool_decide (rc ≠ 0)); exact P.
Qed.

Lemma agree_initial : agree initial initial.
Proof. done. Qed.

Lemma value_agree {A} (m1 m2 : M A) : magree m1 m2 → value m1 = value m2.
Proof. intros H. apply (H initial initial agree_initial). Qed.

Lemma effects_agree {A} (m1 m2 : M A) : magree m1 m2 → effects m1 = effects m2.
Proof. intros H. apply (H initial initial agree_initial). Qed.

Section FetchPathsFacts.

Variable w : World.
Variables hostname server t : string.

Lemma get_current_ips_None :
  ∃ ips, value (get_current_ips None w hostname server t) = Ret ips
    ∧ fetch_path w hostname server t ips (effects (get_current_ips None w hostname server t)).
Proof.
  unfold value, effects, get_current_ips.
  cbv [mbind M_bind mret M_ret emit when truthy lift answer raise assert
       try_except last_item initial].
  cbn [printed log files fst snd].
  assert (Hquery : ∀ evs srv, resolution w server evs (Some srv) →
    (∀ e, query w t srv hostname = inl e →
       fetch_path w hostname server t [] (evs ++ [EvDnsQuery srv hostname (rdtype t)]))
    ∧ (∀ recs, query w t srv hostname = inr recs →
       all_is_ip recs t ≠ Ret true →
       fetch_path w hostname server t [] (evs ++ [EvDnsQuery srv hostname (rdtype t)]))
    ∧ (∀ recs, query w t srv hostname = inr recs →
       all_is_ip recs t = Ret true →
       fetch_path w hostname server t recs (evs ++ [EvDnsQuery srv hostname (rdtype t)])))
    by (intros evs srv Hres; repeat split; intros;
        [eapply fetch_failed | eapply fetch_invalid | eapply fetch_answer];
        eauto).
  unfold query, rdtype in Hquery.
  destruct (is_ip server "ANY") as [[|]|e] eqn:Hlit; cbn [negb].
  - destruct (Hquery _ _ (res_literal w server Hlit)) as (Hf & Hi & Ha).
    destruct (bool_decide (t = "A"));
      [destruct (dns_lookup w server hostname) as [e|recs]
      |destruct (dns_lookup6 w server hostname) as [e|recs]];
      cbn [printed log files fst snd]; eauto.
    all: destruct (all_is_ip recs t) as [[|]|e] eqn:Hall;
      cbn [printed log files fst snd]; eauto.
    all: eexists; (split; [reflexivity|]); eapply Hi; [done|congruence].
  - destruct (getaddrinfo w server 80) as [e|infos] eqn:Hg;
      cbn [printed log files fst snd app].
    { eauto using fetch_path, resolution. }
    destruct (last infos) as [info|] eqn:Hlast;
      cbn [printed log files fst snd app].
    2: { apply last_None in Hlast as ->. eauto using fetch_path, resolution. }
    destruct (Hquery _ _ (res_resolved w server _ _ Hlit Hg Hlast)) as (Hf & Hi & Ha).
    destruct (bool_decide (t = "A"));
      [destruct (dns_lookup w _ hostname) as [e|recs]
      |destruct (dns_lookup6 w _ hostname) as [e|recs]];
      cbn [printed log files fst snd app]; eauto.
    all: destruct (all_is_ip recs t) as [[|]|e] eqn:Hall;
      cbn [printed log files fst snd]; eauto.
    all: eexists; (split; [reflexivity|]); eapply Hi; [done|congruence].
  - simpl. eauto using fetch_path, resolution.
Qed.
End FetchPathsFacts.

(** ** The paths of a run *)

Lemma run_path d w :
  path w (exit_code (run d w)) (stderr (run d w))
    (log (final (run d w))) (files (final (run d w))).
Proof.
  destruct (run_agree d None w) as (-> & -> & -> & ->). apply main_path.
Qed.

Lemma get_remote_ip_value d w url t :
  value (get_remote_ip d w url t) = value (get_remote_ip None w url t).
Proof. apply value_agree, get_remote_ip_agree. Qed.

Lemma get_current_ips_value d w hostname server t :
  value (get_current_ips d w hostname server t)
  = value (get_current_ips None w hostname server t).
Proof. apply value_agree, get_current_ips_agree. Qed.

Lemma get_current_ips_effects d w hostname server t :
  effects (get_current_ips d w hostname server t)
  = effects (get_current_ips None w hostname server t).
Proof. apply effects_agree, get_current_ips_agree. Qed.

Lemma get_current_ips_path d w hostname server t :
  ∃ ips, value (get_current_ips d w hostname server t) = Ret ips
    ∧ fetch_path w hostname server t ips
        (effects (get_current_ips d w hostname server t)).
Proof.
  rewrite get_current_ips_value, get_current_ips_effects.
  apply get_current_ips_None.
Qed.

Lemma resolution_network w server evs o :
  resolution w server evs o → forallb is_network evs = true.
Proof. by destruct 1. Qed.

Lemma fetch_path_network w hostname server t ips evs :
  fetch_path w hostname server t ips evs → forallb is_network evs = true.
Proof.
  destruct 1 as [evs H|evs ? ? H|evs ? ? H|evs ? ? H];
    apply resolution_network in H; rewrite ?forallb_app, ?H; done.
Qed.

Lemma network_not_update evs :
  forallb is_network evs = true → existsb is_update evs = false.
Proof.
  induction evs as [|ev evs IH]; simpl; [done|].
  intros [Hev Hevs]%andb_prop. rewrite (IH Hevs). by destruct ev.
Qed.

Lemma lookups_no_update w privkey server hostname :
  existsb is_update (lookups w privkey server hostname) = false.
Proof.
  unfold lookups. rewrite existsb_app. simpl.
  destruct (get_current_ips_path None w hostname server (the_type w))
    as (ips & _ & H).
  by rewrite (network_not_update _ (fetch_path_network _ _ _ _ _ _ H)).
Qed.

Lemma not_in_no_update ev evs :
  existsb is_update evs = false → is_update ev = true → ev ∉ evs.
Proof.
  intros H Hev Hin. apply not_true_iff_false in H. apply H.
  apply existsb_exists. exists ev. split; [|done].
  by apply list_elem_of_In.
Qed.

(** Membership in a list given by its elements *)
Ltac in_list H :=
  repeat (apply elem_of_cons in H as [H|H]; [try discriminate H|]);
  try (by apply elem_of_nil in H).

(** Two configurations of one world are the same. *)
Lemma configured_inj w p1 s1 h1 p2 s2 h2 :
  configured w p1 s1 h1 → configured w p2 s2 h2 →
  p1 = p2 ∧ s1 = s2 ∧ h1 = h2.
Proof. intros (? & ? & ?) (? & ? & ?). repeat split; congruence. Qed.

(** ** Nothing is printed when [IPDEBUG] is unset *)

Section Quiet.

Context {A B : Type}.

Lemma quiet_ret (a : A) : quiet (mret a).
Proof. done. Qed.

Lemma quiet_raise (e : base_exception) : quiet (@raise A e).
Proof. done. Qed.

Lemma quiet_lift (r : result A) : quiet (lift r).
Proof. done. Qed.

Lemma quiet_answer (r : exception + A) : quiet (answer r).
Proof. by destruct r. Qed.

Lemma quiet_bind (m : M A) (f : A → M B) :
  quiet m → (∀ a, quiet (f a)) → quiet (m ≫= f).
Proof.
  intros Hm Hf s. unfold mbind, M_bind. specialize (Hm s).
  destruct (m s) as [[a|e] s']; simpl in *; [|done].
  by rewrite Hf.
Qed.

Lemma quiet_try_except_Exception (m : M A) (h : exception → M A) :
  quiet m → (∀ e, quiet (h e)) → quiet (try_except_Exception m h).
Proof.
  intros Hm Hh s. unfold try_except_Exception. specialize (Hm s).
  destruct (m s) as [[a|[x|e]] s']; simpl in *; [done..|].
  by rewrite Hh.
Qed.

Lemma quiet_try_except (m h : M A) :
  quiet m → quiet h → quiet (try_except m h).
Proof.
  intros Hm Hh s. unfold try_except. specialize (Hm s).
  destruct (m s) as [[a|e] s']; simpl in *; [done|].
  by rewrite Hh.
Qed.

End Quiet.

Lemma quiet_emit ev : quiet (emit ev).
Proof. done. Qed.

Lemma quiet_update_files f : quiet (update_files f).
Proof. done. Qed.

Lemma quiet_os_remove path : quiet (os_remove path).
Proof. done. Qed.

Lemma quiet_assert b : quiet (assert b).
Proof. by destruct b. Qed.

Lemma quiet_sys_exit {A} arg : quiet (@sys_exit A arg).
Proof. done. Qed.

Lemma quiet_when_false m : quiet (when false m).
Proof. done. Qed.

Lemma quiet_last_item {A} (l : list A) : quiet (last_item l).
Proof. unfold last_item. by destruct (last l). Qed.

Create HintDb quiet discriminated.
#[local] Hint Resolve quiet_ret quiet_raise quiet_lift quiet_answer
  quiet_emit quiet_update_files quiet_os_remove quiet_assert quiet_sys_exit
  quiet_when_false quiet_last_item : quiet.

Ltac quiet_step :=
  match goal with
  | |- quiet (_ ≫= _) => apply quiet_bind; [|intros ?]
  | |- quiet (try_except_Exception _ _) =>
      apply quiet_try_except_Exception; [|intros ?]
  | |- quiet (try_except _ _) => apply quiet_try_except
  | |- quiet (if ?b then _ else _) => destruct b
  | |- quiet (match ?x with _ => _ end) => destruct x
  | |- quiet _ => solve [auto with quiet]
  end.



(** The decision of the specification is the negation of the condition
    under which [main] leaves without an update. *)
Lemma needsUpdate_unchanged w ip currentips :
  needsUpdate ip (list_to_set currentips) (Args.force (parse_args w))
    (Args.deleteonly (parse_args w))
  = negb (unchanged w ip currentips).
Proof.
  unfold needsUpdate, unchanged, same_set.
  destruct (decide (({[ ip ]} : gset string) = list_to_set currentips)).
  - rewrite (bool_decide_eq_true_2 (_ = _)) by done.
    rewrite (bool_decide_eq_false_2 (_ ≠ _)) by auto.
    by destruct (Args.force _), (Args.deleteonly _).
  - rewrite (bool_decide_eq_false_2 (_ = _)) by done.
    rewrite (bool_decide_eq_true_2 (_ ≠ _)) by done.
    by destruct (Args.force _), (Args.deleteonly _).
Qed.

(** What is known of a run once the configuration is valid and the two
    lookups have returned. *)
Lemma run_after_lookups d w privkey server hostname ip currentips :
  configured w privkey server hostname →
  isfile w privkey = true →
  value (get_remote_ip d w (the_url w) (the_type w)) = Ret (Some ip) →
  value (get_current_ips d w hostname server (the_type w)) = Ret currentips →
  let o := run d w in
  let before := lookups w privkey server hostname in
  let update :=
    [EvTempCreate (tmpname w);
     EvWrite (tmpname w) (script w server hostname ip);
     EvPopen (command w privkey)] in
  (unchanged w ip currentips = true
   ∧ exit_code o = 0 ∧ stderr o = Silent ∧ log (final o) = before
   ∧ files (final o) = ∅)
  ∨ (unchanged w ip currentips = false
     ∧ ∃ e, popen w (command w privkey) = inl e
       ∧ exit_code o = 1 ∧ stderr o = Traceback e
       ∧ log (final o) = before ++ update
       ∧ files (final o) = {[ tmpname w := script w server hostname ip ]})
  ∨ (unchanged w ip currentips = false
     ∧ ∃ out err rc, popen w (command w privkey) = inr (out, err, rc)
       ∧ exit_code o = (if bool_decide (rc ≠ 0) then 1 else 0)
       ∧ stderr o
         = (if bool_decide (rc ≠ 0)
            then Message ("ERROR: nsupdate failed - "
                          +:+ Repr.repr_bytes out +:+ " / "
                          +:+ Repr.repr_bytes err)
            else Silent)
       ∧ log (final o) = before ++ update ++ [EvRemove (tmpname w)]
       ∧ files (final o) = ∅).
Proof.
  rewrite get_remote_ip_value, get_current_ips_value.
  intros Hconf Hfile Hip Hcur. simpl.
  destruct (run_path d w)
    as [[H|[H|H]]
       |p s h Hc ?
       |p s h Hc ? ?
       |p s h ip' cur' Hc ? Hip' Hcur' ?
       |p s h ip' cur' e Hc ? Hip' Hcur' ? ?
       |p s h ip' cur' out err rc Hc ? Hip' Hcur' ? ?];
    try (destruct Hconf as (? & ? & ?); congruence);
    destruct (configured_inj _ _ _ _ _ _ _ Hc Hconf) as (-> & -> & ->);
    try congruence.
  all: assert (ip' = ip) as -> by congruence.
  all: assert (cur' = currentips) as -> by congruence.
  - left. auto.
  - right. left. eauto 10.
  - right. right. split; [done|]. exists out, err, rc. auto.
Qed.

(** The result of [get_remote_ip], by cases on what the service answers. *)
Lemma get_remote_ip_cases d w url t :
  match http_get w url with
  | inl _ => value (get_remote_ip d w url t) = Ret None
  | inr body =>
      match is_ip (Str.strip body) t with
      | Ret true => value (get_remote_ip d w url t) = Ret (Some (Str.strip body))
      | _ => value (get_remote_ip d w url t) = Ret None
      end
  end.
Proof.
  rewrite get_remote_ip_value.
  unfold value, get_remote_ip, try_except_Exception, mbind, M_bind. simpl.
  destruct (http_get w url) as [e|body]; simpl; [done|].
  unfold lift.
  destruct (is_ip (Str.strip body) t) as [[|]|[x|e]] eqn:Hip; simpl;
    try done.
  by apply is_ip_raises in Hip.
Qed.

(** [all_is_ip] is true exactly when [is_ip] accepts every record. *)
Lemma all_is_ip_true ips t :
  all_is_ip ips t = Ret true ↔ ∀ ip, ip ∈ ips → is_ip ip t = Ret true.
Proof.
  induction ips as [|ip ips IH]; simpl.
  - split; [|done]. intros _ ip Hin. by apply elem_of_nil in Hin.
  - destruct (is_ip ip t) as [[|]|e] eqn:Hip.
    + rewrite IH. split.
      * intros H ip' [->|Hin]%elem_of_cons; auto.
      * intros H ip' Hin. apply H. by apply list_elem_of_further.
    + split; [done|]. intros H.
      specialize (H ip (list_elem_of_here _ _)). congruence.
    + split; [done|]. intros H.
      specialize (H ip (list_elem_of_here _ _)). congruence.
Qed.



(** ** The validators *)

Lemma is_ip_A ip : is_ip ip "A" = Ret (is_ipv4 ip).
Proof. reflexivity. Qed.

Lemma is_ip_AAAA ip : is_ip ip "AAAA" = is_ipv6 ip.
Proof. reflexivity. Qed.

(** [is_ipv6] accepts exactly what the C library parses. *)
Lemma is_ipv6_true ip :
  is_ipv6 ip = Ret true ↔
  Str.has_nul ip = false ∧ ∃ addr, Libc.inet_pton6 ip = Some addr.
Proof.
  unfold is_ipv6, socket_inet_pton6.
  destruct (Str.has_nul ip); [split; [done|by intros [? ?]]|].
  destruct (Libc.inet_pton6 ip) as [addr|].
  - split; eauto.
  - split; [done|]. by intros [_ [? ?]].
Qed.

Lemma is_ip_ANY_of_ipv4 ip : is_ipv4 ip = true → is_ip ip "ANY" = Ret true.
Proof. unfold is_ip. simpl. by intros ->. Qed.

(** The four examples of the specification *)
Lemma validator_examples :
  is_ip "1.2.3.4" "A" = Ret true ∧ is_ip "1.2.3.4" "AAAA" = Ret false
  ∧ is_ip "::1" "AAAA" = Ret true ∧ is_ip "::1" "A" = Ret false.
Proof. by vm_compute. Qed.

(** A literal server is queried as it is: no name is resolved. *)
Lemma literal_server_not_resolved d w hostname server t host port :
  is_ip server "ANY" = Ret true →
  EvGetAddrInfo host port ∉ effects (get_current_ips d w hostname server t).
Proof.
  intros Hlit Hin.
  destruct (get_current_ips_path d w hostname server t) as (ips & _ & Hpath).
  assert (Hres : ∀ evs o, resolution w server evs o → evs = [])
    by (intros evs o Hr; inversion Hr; congruence).
  destruct Hpath as [evs Hr|evs srv' e Hr ?|evs srv' recs Hr ? ?
                    |evs srv' recs Hr ? ?];
    apply Hres in Hr as ->; simpl in Hin; in_list Hin.
Qed.

(** ** The temporary file *)

(** Where the file is left: on the path on which nsupdate cannot be
    launched, and on no other. *)
Lemma tempfile_fate d w :
  files (final (run d w)) = ∅
  ∨ ∃ privkey server hostname ip e,
      popen w (command w privkey) = inl e
      ∧ stderr (run d w) = Traceback e
      ∧ files (final (run d w))
        = {[ tmpname w := script w server hostname ip ]}.
Proof.
  destruct (run_path d w); eauto 10.
Qed.

(** When nsupdate has been launched and has ended, with any status, the
    file is gone. *)
Lemma tempfile_removed_after_launch d w cmd r :
  EvPopen cmd ∈ log (final (run d w)) → popen w cmd = inr r →
  files (final (run d w)) = ∅
  ∧ EvRemove (tmpname w) ∈ log (final (run d w)).
Proof.
  intros Hin Hpopen. revert Hin.
  assert (Hno : ∀ p s h, EvPopen cmd ∉ lookups w p s h)
    by (intros; by eapply not_in_no_update; [apply lookups_no_update|]).
  destruct (run_path d w) as [| | | |p s h ip cur e ? ? ? ? ? Hp
                               |p s h ip cur out' err' rc' ? ? ? ? ? Hp];
    intros Hin.
  - in_list Hin.
  - in_list Hin.
  - in_list Hin.
  - by apply Hno in Hin.
  - apply elem_of_app in Hin as [Hin|Hin]; [by apply Hno in Hin|].
    in_list Hin. injection Hin as ->. congruence.
  - split; [done|]. apply elem_of_app. right.
    do 3 apply list_elem_of_further. apply list_elem_of_here.
Qed.

(** When nsupdate cannot be launched, the file stays. *)
Lemma tempfile_left_after_failed_launch d w cmd e :
  EvPopen cmd ∈ log (final (run d w)) → popen w cmd = inl e →
  is_Some (files (final (run d w)) !! tmpname w)
  ∧ EvRemove (tmpname w) ∉ log (final (run d w)).
Proof.
  intros Hin Hpopen. revert Hin.
  assert (Hno : ∀ ev p s h, is_update ev = true → ev ∉ lookups w p s h)
    by (intros; by eapply not_in_no_update; [apply lookups_no_update|]).
  destruct (run_path d w) as [| | | |p s h ip cur e' ? ? ? ? ? Hp
                               |p s h ip cur out' err' rc' ? ? ? ? ? Hp];
    intros Hin.
  - in_list Hin.
  - in_list Hin.
  - in_list Hin.
  - by apply Hno in Hin.
  - split; [by rewrite lookup_singleton_eq|].
    intros Hrm. apply elem_of_app in Hrm as [Hrm|Hrm];
      [by apply Hno in Hrm|]. in_list Hrm.
  - apply elem_of_app in Hin as [Hin|Hin]; [by apply Hno in Hin|].
    in_list Hin. injection Hin as ->. congruence.
Qed.

(** ** The lines of the script *)

Lemma all_chars_app p s1 s2 :
  all_chars p (s1 +:+ s2) = all_chars p s1 && all_chars p s2.
Proof.
  induction s1 as [|c s1 IH]; [done|].
  rewrite append_cons. simpl. by rewrite IH, andb_assoc.
Qed.

(** The decimal form of an integer has no newline. *)
Lemma pretty_N_go_one_line x : ∀ s,
  one_line s = true → one_line (pretty_N_go x s) = true.
Proof.
  induction (N.lt_wf_0 x) as [x _ IH]; intros s Hs.
  assert (x = 0 ∨ 0 < x)%N as [->|?] by lia.
  - by rewrite pretty_N_go_0.
  - rewrite pretty_N_go_step by done. apply IH.
    { by apply N.div_lt. }
    unfold one_line in *. simpl. rewrite Hs, andb_true_r.
    unfold pretty_N_char. by repeat case_match.
Qed.

Lemma pretty_Z_one_line (z : Z) : one_line (pretty z) = true.
Proof.
  assert (HN : ∀ n : N, one_line (pretty n) = true).
  { intros n. unfold pretty, pretty_N. destruct (decide (n = 0%N)); [done|].
    by apply pretty_N_go_one_line. }
  destruct z as [|p|p]; [done|apply HN|].
  unfold pretty, pretty_Z, one_line. rewrite all_chars_app. apply HN.
Qed.

(** [sep.join(l).split(sep) == l] when no element holds the separator. *)
Lemma split_join sep l :
  l ≠ [] →
  Forall (λ s, all_chars (λ c, negb (bool_decide (c = sep))) s = true) l →
  Str.split sep (Str.join (String sep "") l) = l.
Proof.
  intros Hne Hall. induction Hall as [|s l Hs Hall IH]; [done|].
  destruct l as [|s' l].
  - simpl. by apply split_no_sep.
  - rewrite join_cons_cons, append_cons, append_nil_l.
    rewrite split_app by done. by rewrite IH.
Qed.

(** The lines the program writes hold no newline when its arguments hold
    none; the new address is not looked at in a delete-only script. *)
Lemma written_transaction_one_line server zone hostname newIP ttl type
    deleteOnly :
  one_line server = true → one_line zone = true →
  one_line hostname = true → one_line type = true →
  (deleteOnly = false → one_line newIP = true) →
  Forall (λ s, one_line s = true)
    (written_transaction server zone hostname newIP ttl type deleteOnly).
Proof.
  intros Hs Hz Hh Ht Hip.
  pose proof (pretty_Z_one_line ttl) as Httl.
  unfold written_transaction, delete_directive, add_directive.
  destruct deleteOnly; [|specialize (Hip eq_refl)];
    unfold one_line in *;
    repeat (apply Forall_cons; split); try apply Forall_nil;
    rewrite ?all_chars_app, ?Hs, ?Hz, ?Hh, ?Hip, ?Ht, ?Httl; done.
Qed.

(** The script, read back line by line, is the lines the program writes. *)
Lemma nsupdate_content_split server zone hostname newIP ttl type deleteOnly :
  one_line server = true → one_line zone = true →
  one_line hostname = true → one_line type = true →
  (deleteOnly = false → one_line newIP = true) →
  Str.split "010"
    (nsupdate_content server zone hostname newIP ttl type deleteOnly)
  = written_transaction server zone hostname newIP ttl type deleteOnly.
Proof.
  intros Hs Hz Hh Ht Hip. rewrite nsupdate_content_lines. unfold nl.
  apply split_join; [done|].
  by apply written_transaction_one_line.
Qed.

(** None of the lines of a delete-only script is an add directive. *)
Lemma delete_only_lines_no_add server zone hostname newIP ttl type line :
  line ∈ written_transaction server zone hostname newIP ttl type true →
  is_add_directive line = false.
Proof.
  unfold written_transaction, delete_directive. intros Hin.
  repeat (apply elem_of_cons in Hin as [->|Hin]; [reflexivity|]).
  by apply elem_of_nil in Hin.
Qed.

(** ** The claims *)

(** C6.  When the key, the server or the host name is missing, or the key
    is not an existing file, the run ends with status 1 and a message, and
    its log holds no network action: no HTTP request, no name resolution
    and no DNS query has been made. *)
Theorem config_checked_before_network d w :
  Args.privkey (parse_args w) = None ∨ Args.server (parse_args w) = None
  ∨ Args.hostname (parse_args w) = None
  ∨ (∃ privkey, Args.privkey (parse_args w) = Some privkey
       ∧ isfile w privkey = false) →
  exit_code (run d w) = 1
  ∧ (∃ text, stderr (run d w) = Message text)
  ∧ existsb is_network (log (final (run d w))) = false
  ∧ existsb is_update (log (final (run d w))) = false.
Proof.
  intros Hbad.
  assert (Hvalid : ∀ p s h, configured w p s h → isfile w p = true → False).
  { intros p s h (Hp & Hs & Hh) Hfile.
    destruct Hbad as [?|[?|[?|(p' & ? & ?)]]]; congruence. }
  destruct (run_path d w); try (exfalso; by eapply Hvalid); eauto.
Qed.

Lemma config_checked_before_network_witness :
  exit_code (run (Some "1") Sample.keyless) = 1
  ∧ (∃ text, stderr (run (Some "1") Sample.keyless) = Message text)
  ∧ existsb is_network (log (final (run (Some "1") Sample.keyless))) = false
  ∧ existsb is_update (log (final (run (Some "1") Sample.keyless))) = false.
Proof.
  apply (config_checked_before_network (Some "1") Sample.keyless).
  left. reflexivity.
Defined.


(** C9.  When the run has launched nsupdate and nsupdate has ended with
    status [rc]: if [rc] is not zero the run ends with status 1 and the
    message made of the two captured streams; if [rc] is zero the run ends
    with status 0 and no message. *)
Theorem nsupdate_status_surfaces d w cmd out err rc :
  EvPopen cmd ∈ log (final (run d w)) →
  popen w cmd = inr (out, err, rc) →
  (rc ≠ 0 →
     exit_code (run d w) = 1
     ∧ stderr (run d w)
       = Message ("ERROR: nsupdate failed - " +:+ Repr.repr_bytes out
                  +:+ " / " +:+ Repr.repr_bytes err))
  ∧ (rc = 0 → exit_code (run d w) = 0 ∧ stderr (run d w) = Silent).
Proof.
  intros Hin Hpopen. revert Hin.
  assert (Hno : ∀ p s h, EvPopen cmd ∉ lookups w p s h)
    by (intros; by eapply not_in_no_update; [apply lookups_no_update|]).
  destruct (run_path d w) as [| | | |p s h ip cur e ? ? ? ? ? Hp
                               |p s h ip cur out' err' rc' ? ? ? ? ? Hp];
    intros Hin.
  - in_list Hin.
  - in_list Hin.
  - in_list Hin.
  - by apply Hno in Hin.
  - apply elem_of_app in Hin as [Hin|Hin]; [by apply Hno in Hin|].
    in_list Hin. injection Hin as ->. congruence.
  - apply elem_of_app in Hin as [Hin|Hin]; [by apply Hno in Hin|].
    in_list Hin. injection Hin as ->.
    assert (out' = out ∧ err' = err ∧ rc' = rc) as (-> & -> & ->)
      by (split_and!; congruence).
    split; intros Hrc.
    + by rewrite bool_decide_eq_true_2.
    + by rewrite bool_decide_eq_false_2 by (intros H'; by apply H').
Qed.

Lemma nsupdate_status_surfaces_witness :
  exit_code (run None Sample.refused) = 1
  ∧ stderr (run None Sample.refused)
    = Message "ERROR: nsupdate failed - b'Outgoing update query:' / b'update failed: REFUSED'"
  ∧ exit_code (run None Sample.moved) = 0
  ∧ stderr (run None Sample.moved) = Silent.
Proof.
  assert (Hcmd : ∀ w, w = Sample.refused ∨ w = Sample.moved →
    EvPopen (command w Sample.key) ∈ log (final (run None w))).
  { intros w [-> | ->]; vm_compute; do 6 apply list_elem_of_further;
      apply list_elem_of_here. }
  destruct (nsupdate_status_surfaces None Sample.refused
              (command Sample.refused Sample.key) _ _ 2
              (Hcmd _ (or_introl eq_refl)) eq_refl) as [H2 _].
  destruct (nsupdate_status_surfaces None Sample.moved
              (command Sample.moved Sample.key) _ _ 0
              (Hcmd _ (or_intror eq_refl)) eq_refl) as [_ H0].
  destruct (H2 ltac:(done)) as [? ?]. destruct (H0 eq_refl) as [? ?].
  split_and!; assumption.
Defined.

(** C1.  Once the configuration is valid and the two lookups have returned
    [ip] and [currentips], whether the run builds and sends an update is
    [needsUpdate] of the new address, the set of the current records and the
    two flags, and of nothing else: when it is true the script is written
    and nsupdate is launched on it, when it is false the run ends with
    status 0 and has done nothing of an update.  The decision is false on
    (ip, {ip}) unless a flag is set, true on (ip, {}) and true on
    (ip, {other}) with other different from ip. *)
Theorem change_decision :
  (∀ d w privkey server hostname ip currentips,
     configured w privkey server hostname →
     isfile w privkey = true →
     value (get_remote_ip d w (the_url w) (the_type w)) = Ret (Some ip) →
     value (get_current_ips d w hostname server (the_type w))
       = Ret currentips →
     let decision :=
       needsUpdate ip (list_to_set currentips) (Args.force (parse_args w))
         (Args.deleteonly (parse_args w)) in
     existsb is_update (log (final (run d w))) = decision
     ∧ (decision = true →
        EvWrite (tmpname w) (script w server hostname ip)
          ∈ log (final (run d w))
        ∧ EvPopen (command w privkey) ∈ log (final (run d w)))
     ∧ (decision = false →
        exit_code (run d w) = 0 ∧ stderr (run d w) = Silent))
  ∧ (∀ ip force deleteOnly,
       needsUpdate ip {[ ip ]} force deleteOnly = force || deleteOnly)
  ∧ (∀ ip force deleteOnly, needsUpdate ip ∅ force deleteOnly = true)
  ∧ (∀ ip otherIP force deleteOnly,
       otherIP ≠ ip → needsUpdate ip {[ otherIP ]} force deleteOnly = true).
Proof.
  split_and!.
  - intros d w privkey server hostname ip currentips Hconf Hfile Hip Hcur.
    cbv zeta. rewrite needsUpdate_unchanged.
    destruct (run_after_lookups d w _ _ _ _ _ Hconf Hfile Hip Hcur)
      as [(-> & -> & -> & -> & _)
         |[(-> & e & _ & _ & _ & -> & _)
          |(-> & out & err & rc & _ & _ & _ & -> & _)]];
      rewrite ?existsb_app, lookups_no_update;
      cbn [existsb is_update orb negb].
    + split_and!; done.
    + split_and!; [done| |done]. intros _.
      split; apply elem_of_app; right.
      * apply list_elem_of_further, list_elem_of_here.
      * do 2 apply list_elem_of_further. apply list_elem_of_here.
    + split_and!; [done| |done]. intros _.
      split; apply elem_of_app; right.
      * apply list_elem_of_further, list_elem_of_here.
      * do 2 apply list_elem_of_further. apply list_elem_of_here.
  - intros ip force deleteOnly. unfold needsUpdate.
    rewrite bool_decide_eq_false_2 by (intros H; by apply H).
    by destruct force, deleteOnly.
  - intros ip force deleteOnly. unfold needsUpdate.
    rewrite bool_decide_eq_true_2; [by destruct force, deleteOnly|].
    apply non_empty_singleton_L.
  - intros ip otherIP force deleteOnly Hne. unfold needsUpdate.
    rewrite bool_decide_eq_true_2; [by destruct force, deleteOnly|].
    intros H. apply Hne. symmetry. by apply singleton_inj in H.
Qed.

Lemma change_decision_witness :
  existsb is_update (log (final (run None Sample.moved))) = true
  ∧ existsb is_update (log (final (run None Sample.settled))) = false
  ∧ exit_code (run None Sample.settled) = 0
  ∧ needsUpdate "203.0.113.5" {[ "198.51.100.7" ]} false false = true.
Proof.
  destruct change_decision as (Hrun & _ & _ & Hother).
  destruct (Hrun None Sample.moved Sample.key "ns1.example.net"
              "host.example.com" "203.0.113.5" ["198.51.100.7"])
    as (Hm & _ & _); [by vm_compute..|].
  destruct (Hrun None Sample.settled Sample.key "ns1.example.net"
              "host.example.com" "198.51.100.7" ["198.51.100.7"])
    as (Hs & _ & Hs0); [by vm_compute..|].
  split_and!.
  - rewrite Hm. by vm_compute.
  - rewrite Hs. by vm_compute.
  - apply Hs0. by vm_compute.
  - by apply Hother.
Defined.

(** C4.  [get_remote_ip] returns in every state and never raises.  It
    returns [None] when the request or the decoding raises and when the
    body, stripped, is not accepted by [is_ip] for the record type (also when
    [is_ip] itself raises); it returns the stripped body otherwise.  When it
    returns [None] the run ends with status 1 and has done nothing of an
    update; with a valid configuration the message is "Invalid IP returned"
    and the run has made no DNS query either. *)
Theorem remote_fetch_never_raises d w url t :
  (∀ s, ∃ r, (get_remote_ip d w url t s).1 = Ret r
             ∧ value (get_remote_ip d w url t) = Ret r)
  ∧ (∀ e, http_get w url = inl e →
       value (get_remote_ip d w url t) = Ret None)
  ∧ (∀ body, http_get w url = inr body →
       is_ip (Str.strip body) t ≠ Ret true →
       value (get_remote_ip d w url t) = Ret None)
  ∧ (∀ body, http_get w url = inr body →
       is_ip (Str.strip body) t = Ret true →
       value (get_remote_ip d w url t) = Ret (Some (Str.strip body)))
  ∧ (url = the_url w → t = the_type w →
     value (get_remote_ip d w url t) = Ret None →
     exit_code (run d w) = 1
     ∧ existsb is_update (log (final (run d w))) = false
     ∧ ∀ privkey server hostname,
         configured w privkey server hostname → isfile w privkey = true →
         stderr (run d w) = Message "Invalid IP returned"
         ∧ log (final (run d w)) = [EvIsFile privkey; EvHttpGet url]).
Proof.
  pose proof (get_remote_ip_cases d w url t) as Hcases.
  split_and!.
  - intros s. destruct (get_remote_ip_returns d w url t) as [r Hr].
    exists r. split; [|done].
    destruct (get_remote_ip_steady d w url t s) as (-> & _). done.
  - intros e He. by rewrite He in Hcases.
  - intros body Hb Hip. rewrite Hb in Hcases.
    by destruct (is_ip (Str.strip body) t) as [[|]|].
  - intros body Hb Hip. by rewrite Hb, Hip in Hcases.
  - intros -> -> Hnone. rewrite get_remote_ip_value in Hnone.
    destruct (run_path d w)
      as [Hmiss|p s h Hc ?|p s h Hc ? ?|p s h ip' cur' Hc ? Hip' Hcur' ?
         |p s h ip' cur' e Hc ? Hip' Hcur' ? ?
         |p s h ip' cur' out err rc Hc ? Hip' Hcur' ? ?];
      try congruence.
    + split_and!; [done..|]. intros p s h (? & ? & ?).
      destruct Hmiss as [?|[?|?]]; congruence.
    + split_and!; [done..|]. intros p' s' h' Hc' ?.
      destruct (configured_inj _ _ _ _ _ _ _ Hc Hc') as (-> & -> & ->).
      congruence.
    + split_and!; [done..|]. intros p' s' h' Hc' ?.
      by destruct (configured_inj _ _ _ _ _ _ _ Hc Hc') as (-> & -> & ->).
Qed.

Lemma remote_fetch_never_raises_witness :
  value (get_remote_ip None Sample.offline "https://api.ipify.org" "A")
    = Ret None
  ∧ value (get_remote_ip None Sample.moved "https://api.ipify.org" "AAAA")
    = Ret None
  ∧ value (get_remote_ip None Sample.moved "https://api.ipify.org" "A")
    = Ret (Some "203.0.113.5")
  ∧ exit_code (run None Sample.offline) = 1
  ∧ stderr (run None Sample.offline) = Message "Invalid IP returned".
Proof.
  destruct (remote_fetch_never_raises None Sample.offline
              "https://api.ipify.org" "A") as (_ & Hfail & _ & _ & Hrun).
  destruct (remote_fetch_never_raises None Sample.moved
              "https://api.ipify.org" "AAAA") as (_ & _ & Hbad & _ & _).
  destruct (remote_fetch_never_raises None Sample.moved
              "https://api.ipify.org" "A") as (_ & _ & _ & Hgood & _).
  pose proof (Hfail _ eq_refl) as Hnone.
  destruct (Hrun eq_refl eq_refl Hnone) as (Hcode & _ & Hmsg).
  destruct (Hmsg Sample.key "ns1.example.net" "host.example.com")
    as [Herr _]; [by vm_compute..|].
  split_and!; [done| |by apply (Hgood _ eq_refl)|done|done].
  apply (Hbad _ eq_refl). by vm_compute.
Defined.



(** C2.  The run in which the address has changed and nsupdate is not
    installed at the path given: the temporary file is created and written,
    the launch raises, nothing removes the file, and the run ends with a
    traceback and status 1 while the file, with the script in it, is still
    there. *)
Theorem tempfile_left_when_launch_fails :
  let w := Sample.no_nsupdate in
  let o := run None w in
  EvTempCreate (tmpname w) ∈ log (final o)
  ∧ EvPopen (command w Sample.key) ∈ log (final o)
  ∧ (EvRemove (tmpname w) ∉ log (final o))
  ∧ files (final o) !! tmpname w
    = Some (script w "ns1.example.net" "host.example.com" "203.0.113.5")
  ∧ exit_code o = 1
  ∧ stderr o
    = Traceback
        (OSError "[Errno 2] No such file or directory: '/usr/bin/nsupdate'").
Proof.
  cbv zeta.
  assert (Hlog : log (final (run None Sample.no_nsupdate))
    = [EvIsFile Sample.key; EvHttpGet "https://api.ipify.org";
       EvGetAddrInfo "ns1.example.net" 80;
       EvDnsQuery "192.0.2.53" "host.example.com" "A";
       EvTempCreate "/tmp/tmpq3x8z1vd";
       EvWrite "/tmp/tmpq3x8z1vd"
         (script Sample.no_nsupdate "ns1.example.net" "host.example.com"
            "203.0.113.5");
       EvPopen (command Sample.no_nsupdate Sample.key)])
    by (by vm_compute).
  rewrite Hlog. split_and!.
  - do 4 apply list_elem_of_further. apply list_elem_of_here.
  - do 6 apply list_elem_of_further. apply list_elem_of_here.
  - intros Hin. in_list Hin.
  - by vm_compute.
  - by vm_compute.
  - by vm_compute.
Qed.

(** C3, as the claim has it, fails on a delete-only transaction: the text
    written is not the seven lines of the claim, it has an empty fifth line
    between the delete directive and [show]. *)
Lemma delete_only_has_empty_line :
  let content :=
    nsupdate_content "ns1.example.net" "example.com" "host.example.com"
      "203.0.113.5" 300 "A" true in
  content
    ≠ Str.join nl
        (claimed_transaction "ns1.example.net" "example.com"
           "host.example.com" "203.0.113.5" 300 "A" true)
  ∧ Str.split "010" content
    = ["server ns1.example.net."; "debug yes"; "zone example.com.";
       "update delete host.example.com. A"; ""; "show"; "send"; "quit"].
Proof. by vm_compute. Qed.

(** An argument that holds a newline adds lines to the script, and the
    lines it adds are read as directives: a host name of two lines gives
    nine lines, and a host name made for it puts an add directive into a
    delete-only script. *)
Lemma newline_adds_lines :
  length (Str.split "010"
            (nsupdate_content "ns1.example.net" "example.com"
               ("a" +:+ nl +:+ "b") "203.0.113.5" 300 "A" true)) = 9%nat
  ∧ "update add evil.example.com. 60 A 6.6.6.6"
    ∈ Str.split "010"
        (nsupdate_content "ns1.example.net" "example.com"
           ("x. A" +:+ nl +:+ "update add evil.example.com. 60 A 6.6.6.6"
            +:+ nl +:+ "update delete host.example.com")
           "203.0.113.5" 300 "A" true).
Proof.
  split; [by vm_compute|]. vm_compute.
  do 4 apply list_elem_of_further. apply list_elem_of_here.
Qed.

(** C3, amended.  The script is the lines [written_transaction], joined by
    newlines: the server, [debug yes], the zone, one delete directive, then
    a line that holds the add directive when deleteOnly is false and is
    empty when deleteOnly is true, then [show], [send], [quit].  When
    deleteOnly is false these are the lines of the claim; when it is true
    the script does not depend on the new address.  When the server, the
    zone, the host name and the record type, and the new address unless
    deleteOnly is true, hold no newline, the script read back line by line
    is exactly these eight lines, and none of the lines of a delete-only
    script is an add directive.  The zone [main] passes is the host name
    without its leftmost label, and every script a run writes is built from
    the configured server and host name in that way. *)
Theorem update_transaction :
  (∀ server zone hostname newIP ttl type deleteOnly,
     nsupdate_content server zone hostname newIP ttl type deleteOnly
     = Str.join nl
         (written_transaction server zone hostname newIP ttl type deleteOnly)
     ∧ (deleteOnly = false →
        nsupdate_content server zone hostname newIP ttl type deleteOnly
        = Str.join nl
            (claimed_transaction server zone hostname newIP ttl type
               deleteOnly))
     ∧ (deleteOnly = true → ∀ otherIP,
        nsupdate_content server zone hostname otherIP ttl type deleteOnly
        = nsupdate_content server zone hostname newIP ttl type deleteOnly)
     ∧ (one_line server = true → one_line zone = true →
        one_line hostname = true → one_line type = true →
        (deleteOnly = false → one_line newIP = true) →
        let lines :=
          Str.split "010"
            (nsupdate_content server zone hostname newIP ttl type
               deleteOnly) in
        lines
        = written_transaction server zone hostname newIP ttl type deleteOnly
        ∧ length lines = 8%nat
        ∧ (deleteOnly = true →
           lines !! 4%nat = Some ""
           ∧ ∀ line, line ∈ lines → is_add_directive line = false)))
  ∧ (∀ label rest,
       all_chars (λ c, negb (bool_decide (c = "."%char))) label = true →
       Str.join "." (tail (Str.split "." (label +:+ "." +:+ rest))) = rest)
  ∧ (∀ d w path content,
       EvWrite path content ∈ log (final (run d w)) →
       ∃ privkey server hostname ip,
         configured w privkey server hostname
         ∧ content
           = nsupdate_content server
               (Str.join "." (tail (Str.split "." hostname))) hostname ip
               (Args.ttl (parse_args w)) (Args.dnstype (parse_args w))
               (Args.deleteonly (parse_args w))).
Proof.
  split_and!.
  - intros server zone hostname newIP ttl type deleteOnly. split_and!.
    + apply nsupdate_content_lines.
    + intros ->. apply nsupdate_content_lines.
    + by intros -> otherIP.
    + intros Hs Hz Hh Ht Hip lines. subst lines.
      rewrite nsupdate_content_split by done. split_and!; [done..|].
      intros ->. split; [done|].
      intros line. apply delete_only_lines_no_add.
  - apply strip_label.
  - intros d w path content.
    assert (Hno : ∀ p s h, EvWrite path content ∉ lookups w p s h)
      by (intros; by eapply not_in_no_update; [apply lookups_no_update|]).
    destruct (run_path d w) as [| | | |p s h ip cur e Hc ? ? ? ? Hp
                                 |p s h ip cur out' err' rc' Hc ? ? ? ? Hp];
      intros Hin.
    + in_list Hin.
    + in_list Hin.
    + in_list Hin.
    + by apply Hno in Hin.
    + apply elem_of_app in Hin as [Hin|Hin]; [by apply Hno in Hin|].
      in_list Hin. injection Hin as -> ->. by exists p, s, h, ip.
    + apply elem_of_app in Hin as [Hin|Hin]; [by apply Hno in Hin|].
      in_list Hin. injection Hin as -> ->. by exists p, s, h, ip.
Qed.

Lemma update_transaction_witness :
  nsupdate_content "ns1.example.net" "example.com" "host.example.com"
    "203.0.113.5" 300 "A" false
  = Str.join nl
      ["server ns1.example.net."; "debug yes"; "zone example.com.";
       "update delete host.example.com. A";
       "update add host.example.com. 300 A 203.0.113.5";
       "show"; "send"; "quit"]
  ∧ nsupdate_content "ns1.example.net" "example.com" "host.example.com"
      "198.51.100.7" 300 "A" true
    = nsupdate_content "ns1.example.net" "example.com" "host.example.com"
        "203.0.113.5" 300 "A" true
  ∧ Str.split "010"
      (nsupdate_content "ns1.example.net" "example.com" "host.example.com"
         ("203.0.113.5" +:+ nl +:+ "send") 300 "A" true)
    = ["server ns1.example.net."; "debug yes"; "zone example.com.";
       "update delete host.example.com. A"; ""; "show"; "send"; "quit"]
  ∧ is_add_directive "update delete host.example.com. A" = false
  ∧ Str.join "." (tail (Str.split "." "host.example.com")) = "example.com"
  ∧ ∃ privkey server hostname ip,
      configured Sample.moved privkey server hostname
      ∧ script Sample.moved "ns1.example.net" "host.example.com"
          "203.0.113.5"
        = nsupdate_content server
            (Str.join "." (tail (Str.split "." hostname))) hostname ip
            300 "A" false.
Proof.
  destruct update_transaction as (Hcontent & Hzone & Hrun).
  destruct (Hcontent "ns1.example.net" "example.com" "host.example.com"
              "203.0.113.5" 300 "A" false) as (_ & Hadd & _ & _).
  destruct (Hcontent "ns1.example.net" "example.com" "host.example.com"
              "203.0.113.5" 300 "A" true) as (_ & _ & Hdel & _).
  destruct (Hcontent "ns1.example.net" "example.com" "host.example.com"
              ("203.0.113.5" +:+ nl +:+ "send") 300 "A" true)
    as (_ & _ & _ & Hlines).
  destruct Hlines as (Hsplit & _ & Hnoadd);
    [reflexivity| reflexivity| reflexivity| reflexivity| discriminate|].
  destruct (Hnoadd eq_refl) as [_ Hnone].
  split_and!.
  - apply (Hadd eq_refl).
  - apply (Hdel eq_refl).
  - apply Hsplit.
  - apply Hnone. rewrite Hsplit.
    do 3 apply list_elem_of_further. apply list_elem_of_here.
  - apply (Hzone "host" "example.com"). reflexivity.
  - apply (Hrun None Sample.moved "/tmp/tmpq3x8z1vd"). vm_compute.
    do 5 apply list_elem_of_further. apply list_elem_of_here.
Defined.

(** C7.  [is_ip] accepts, as an address of type A, a string that has not
    the dotted-quad shape: a dotted quad followed by a newline, because [$]
    also matches before a final newline. *)
Theorem validator_accepts_trailing_newline :
  let ip := "1.2.3.4" +:+ nl in
  is_ip ip "A" = Ret true ∧ is_ip ip "ANY" = Ret true
  ∧ dotted_quad ip = false ∧ dotted_quad "1.2.3.4" = true.
Proof. by vm_compute. Qed.

(** C8.  A string of the dotted-quad shape, four dot-separated groups of
    one to three decimal digits whatever their values, is accepted by
    [is_ipv4], so by [is_ip] for type A and for type ANY; given as the DNS
    server it is taken for an address, and [get_current_ips] resolves no
    name. *)
Theorem pattern_only_validator s :
  dotted_quad s = true →
  is_ipv4 s = true ∧ is_ip s "A" = Ret true ∧ is_ip s "ANY" = Ret true
  ∧ ∀ d w hostname t host port,
      EvGetAddrInfo host port ∉ effects (get_current_ips d w hostname s t).
Proof.
  intros H%dotted_quad_is_ipv4. split_and!.
  - done.
  - by rewrite is_ip_A, H.
  - by apply is_ip_ANY_of_ipv4.
  - intros. by apply literal_server_not_resolved, is_ip_ANY_of_ipv4.
Qed.

Lemma pattern_only_validator_witness :
  is_ipv4 "999.1.1.1" = true ∧ is_ip "999.1.1.1" "A" = Ret true
  ∧ is_ip "999.999.999.999" "ANY" = Ret true
  ∧ effects (get_current_ips None Sample.odd_server "host.example.com"
               "999.1.1.1" "A")
    = [EvDnsQuery "999.1.1.1" "host.example.com" "A"].
Proof.
  destruct (pattern_only_validator "999.1.1.1" eq_refl) as (H4 & HA & _ & _).
  destruct (pattern_only_validator "999.999.999.999" eq_refl)
    as (_ & _ & HANY & _).
  split_and!; [done..|]. by vm_compute.
Defined.

(** ** More of the program *)

(** *** What the lookups return *)

Lemma rstrip_last s : ∀ q c,
  Str.rstrip s = q +:+ String c "" → Str.isspace c = false.
Proof.
  induction s as [|a s IH]; intros q c; simpl.
  - by destruct q.
  - destruct (Str.rstrip s) as [|b r] eqn:Hr.
    + destruct (Str.isspace a) eqn:Ha; [by destruct q|].
      destruct q as [|a' [|? ?]]; [|done..].
      rewrite append_nil_l. by intros [= <-].
    + destruct q as [|a' q].
      * rewrite append_nil_l. done.
      * rewrite append_cons. intros [= <- Hq]. by eapply IH.
Qed.

Lemma lstrip_suffix s : ∃ pre, s = pre +:+ Str.lstrip s.
Proof.
  induction s as [|a s [pre IH]]; simpl.
  - by exists "".
  - destruct (Str.isspace a).
    + exists (String a pre). by rewrite append_cons, <- IH.
    + by exists "".
Qed.

(** What [strip] returns has no white space at either end. *)
Lemma strip_last s q c :
  Str.strip s = q +:+ String c "" → Str.isspace c = false.
Proof.
  unfold Str.strip. intros H.
  destruct (lstrip_suffix (Str.rstrip s)) as [pre Hpre].
  rewrite H, <- append_assoc in Hpre.
  by apply rstrip_last in Hpre.
Qed.

Lemma lstrip_first s c rest :
  Str.lstrip s = String c rest → Str.isspace c = false.
Proof.
  induction s as [|a s IH]; simpl; [done|].
  destruct (Str.isspace a) eqn:Ha; [done|]. by intros [= <- _].
Qed.

Lemma strip_first s c rest :
  Str.strip s = String c rest → Str.isspace c = false.
Proof. apply lstrip_first. Qed.

(** In particular it does not end with a newline. *)
Lemma strip_no_final_newline s q : Str.strip s ≠ q +:+ nl.
Proof. unfold nl. by intros H%strip_last. Qed.

(** X1.  What [get_remote_ip] returns, when it returns an address, is the
    body of the answer stripped of surrounding white space, and [is_ip] has
    accepted it for the record type.  It has no white space at either end:
    the newline that [is_ipv4] lets pass at the end of a string cannot be
    there after [strip], so it does not come into the script with the
    address the echo service gives. *)
Theorem fetched_address_is_validated d w url t ip :
  value (get_remote_ip d w url t) = Ret (Some ip) →
  (∃ body, http_get w url = inr body ∧ ip = Str.strip body)
  ∧ is_ip ip t = Ret true
  ∧ (∀ c rest, ip = String c rest → Str.isspace c = false)
  ∧ (∀ q c, ip = q +:+ String c "" → Str.isspace c = false)
  ∧ (∀ q, ip ≠ q +:+ nl).
Proof.
  intros Hval. pose proof (get_remote_ip_cases d w url t) as Hcases.
  destruct (http_get w url) as [e|body]; [congruence|].
  destruct (is_ip (Str.strip body) t) as [[|]|e] eqn:Hip; try congruence.
  assert (ip = Str.strip body) as -> by congruence.
  split_and!; [by exists body|done|..].
  - intros c rest. apply strip_first.
  - intros q c. apply strip_last.
  - intros q. apply strip_no_final_newline.
Qed.

Lemma fetched_address_is_validated_witness :
  (∃ body, http_get Sample.moved "https://api.ipify.org" = inr body
           ∧ "203.0.113.5" = Str.strip body)
  ∧ is_ip "203.0.113.5" "A" = Ret true
  ∧ "203.0.113.5" ≠ "203.0.113.5" +:+ nl
  ∧ Str.isspace "5" = false.
Proof.
  destruct (fetched_address_is_validated None Sample.moved
              "https://api.ipify.org" "A" "203.0.113.5")
    as (Hbody & Hip & _ & Hlast & _); [by vm_compute|].
  split_and!; [done..|by vm_compute|].
  by apply (Hlast "203.0.113.").
Defined.

(** X2.  Every record [get_current_ips] returns has been accepted by
    [is_ip] for the record type, and a list that is not empty is the whole
    answer of the one query the call has sent. *)
Theorem current_records_are_validated d w hostname server t ips :
  value (get_current_ips d w hostname server t) = Ret ips →
  (∀ ip, ip ∈ ips → is_ip ip t = Ret true)
  ∧ (ips ≠ [] →
     ∃ srv, EvDnsQuery srv hostname (rdtype t)
              ∈ effects (get_current_ips d w hostname server t)
            ∧ query w t srv hostname = inr ips).
Proof.
  intros Hval.
  destruct (get_current_ips_path d w hostname server t)
    as (ips' & Hval' & Hpath).
  assert (ips' = ips) as -> by congruence.
  destruct Hpath as [evs Hr|evs srv e Hr ?|evs srv recs Hr ? ?
                    |evs srv recs Hr Hq Hall].
  - split; [|done]. intros ip Hin. by apply elem_of_nil in Hin.
  - split; [|done]. intros ip Hin. by apply elem_of_nil in Hin.
  - split; [|done]. intros ip Hin. by apply elem_of_nil in Hin.
  - split; [by apply all_is_ip_true|]. intros _. exists srv. split; [|done].
    apply elem_of_app. right. apply list_elem_of_here.
Qed.

Lemma current_records_are_validated_witness :
  (∀ ip, ip ∈ ["198.51.100.7"] → is_ip ip "A" = Ret true)
  ∧ ∃ srv, EvDnsQuery srv "host.example.com" "A"
             ∈ effects (get_current_ips None Sample.moved "host.example.com"
                          "ns1.example.net" "A")
           ∧ query Sample.moved "A" srv "host.example.com"
             = inr ["198.51.100.7"].
Proof.
  destruct (current_records_are_validated None Sample.moved
              "host.example.com" "ns1.example.net" "A" ["198.51.100.7"])
    as (Hall & Hq); [by vm_compute|].
  split; [done|]. by apply Hq.
Defined.

(** *** Which server is asked, and for what *)

(** X3.  The DNS query of [get_current_ips] is for the host name given, of
    type A when the record type is 'A' and of type AAAA for every other
    type.  It goes to the server as given when [is_ip] takes it for an
    address, and otherwise to the host of the last entry that
    [getaddrinfo] returns for it. *)
Theorem query_target d w hostname server t srv h rd :
  EvDnsQuery srv h rd ∈ effects (get_current_ips d w hostname server t) →
  h = hostname
  ∧ rd = (if bool_decide (t = "A") then "A" else "AAAA")
  ∧ (is_ip server "ANY" = Ret true ∧ srv = server
     ∨ is_ip server "ANY" = Ret false
       ∧ ∃ infos info, getaddrinfo w server 80 = inr infos
           ∧ last infos = Some info ∧ srv = ai_sockaddr_host info).
Proof.
  intros Hin.
  destruct (get_current_ips_path d w hostname server t) as (ips & _ & Hpath).
  assert (Hres : ∀ pre o, resolution w server pre o →
                          EvDnsQuery srv h rd ∉ pre).
  { intros pre o Hr Hq. destruct Hr; in_list Hq. }
  assert (Hsrv : ∀ pre, resolution w server pre (Some srv) →
    is_ip server "ANY" = Ret true ∧ srv = server
    ∨ is_ip server "ANY" = Ret false
      ∧ ∃ infos info, getaddrinfo w server 80 = inr infos
          ∧ last infos = Some info ∧ srv = ai_sockaddr_host info).
  { intros pre Hr. inversion Hr; subst; eauto 10. }
  destruct Hpath as [evs Hr|evs srv' e Hr ?|evs srv' recs Hr ? ?
                    |evs srv' recs Hr ? ?].
  - by apply Hres in Hr.
  - apply elem_of_app in Hin as [Hin|Hin]; [by apply Hres in Hr|].
    in_list Hin. injection Hin as -> -> ->. eauto.
  - apply elem_of_app in Hin as [Hin|Hin]; [by apply Hres in Hr|].
    in_list Hin. injection Hin as -> -> ->. eauto.
  - apply elem_of_app in Hin as [Hin|Hin]; [by apply Hres in Hr|].
    in_list Hin. injection Hin as -> -> ->. eauto.
Qed.

Lemma query_target_witness :
  effects (get_current_ips None two_addresses "host.example.com"
             "ns1.example.net" "A")
  = [EvGetAddrInfo "ns1.example.net" 80;
     EvDnsQuery "192.0.2.53" "host.example.com" "A"]
  ∧ ∃ infos info, getaddrinfo two_addresses "ns1.example.net" 80 = inr infos
      ∧ last infos = Some info ∧ "192.0.2.53" = ai_sockaddr_host info.
Proof.
  assert (Heff : effects (get_current_ips None two_addresses
                   "host.example.com" "ns1.example.net" "A")
    = [EvGetAddrInfo "ns1.example.net" 80;
       EvDnsQuery "192.0.2.53" "host.example.com" "A"]) by (by vm_compute).
  split; [done|].
  destruct (query_target None two_addresses "host.example.com"
              "ns1.example.net" "A" "192.0.2.53" "host.example.com" "A")
    as (_ & _ & [[Hlit _]|[_ Hlast]]).
  - rewrite Heff. apply list_elem_of_further, list_elem_of_here.
  - by vm_compute in Hlit.
  - done.
Defined.

(** *** The order of the actions *)

Ltac sublist_of_program_order :=
  repeat first [apply sublist_nil | apply sublist_skip | apply sublist_cons].

Lemma lookup_kinds w hostname server t ips evs :
  fetch_path w hostname server t ips evs →
  kind_of <$> evs = [] ∨ kind_of <$> evs = [KGetAddrInfo]
  ∨ kind_of <$> evs = [KDnsQuery]
  ∨ kind_of <$> evs = [KGetAddrInfo; KDnsQuery].
Proof.
  destruct 1 as [evs Hr|evs ? ? Hr ?|evs ? ? Hr ? ?|evs ? ? Hr ? ?];
    destruct Hr; rewrite ?fmap_app; simpl; auto.
Qed.

(** X4.  The actions of a run are some of: the check of the key file, the
    HTTP request, the resolution of the server name, the DNS query, the
    creation of the temporary file, its writing, the launch of nsupdate, the
    removal of the file; each at most once and in this order.  Nothing is
    tried a second time, and no update action comes before a lookup. *)
Theorem actions_in_program_order d w :
  kind_of <$> log (final (run d w)) `sublist_of` program_order.
Proof.
  assert (Hlook : ∀ p s h tl,
    tl `sublist_of` [KTempCreate; KWrite; KPopen; KRemove] →
    (kind_of <$> lookups w p s h) ++ tl `sublist_of` program_order).
  { intros p s h tl Htl. unfold lookups. rewrite fmap_app.
    change program_order
      with ([KIsFile; KHttpGet; KGetAddrInfo; KDnsQuery]
            ++ [KTempCreate; KWrite; KPopen; KRemove]).
    apply sublist_app; [|done].
    destruct (get_current_ips_path None w h s (the_type w)) as (ips & _ & Hp).
    apply lookup_kinds in Hp as [-> |[-> |[-> | ->]]]; simpl;
      sublist_of_program_order. }
  destruct (run_path d w).
  - apply sublist_nil_l.
  - simpl. unfold program_order. sublist_of_program_order.
  - simpl. unfold program_order. sublist_of_program_order.
  - rewrite <- (app_nil_r (kind_of <$> _)). apply Hlook.
    sublist_of_program_order.
  - rewrite fmap_app. apply Hlook. simpl. sublist_of_program_order.
  - rewrite fmap_app. apply Hlook. simpl. sublist_of_program_order.
Qed.

(** *** The comparison of the addresses *)

(** X5.  [set([ip]) == set(currentips)] holds exactly when the list of
    current records is not empty and each of its entries is [ip]: order and
    repetition do not count, and one entry that differs from [ip], or an
    empty list, makes the comparison false. *)
Theorem same_set_spec ip currentips :
  same_set ip currentips = true ↔
  currentips ≠ [] ∧ ∀ x, x ∈ currentips → x = ip.
Proof.
  unfold same_set. rewrite bool_decide_eq_true. split.
  - intros H. split.
    + intros ->. by apply (non_empty_singleton_L (C:=gset string) ip).
    + intros x Hx. apply (elem_of_list_to_set (C:=gset string)) in Hx.
      rewrite <- H in Hx. by apply elem_of_singleton in Hx.
  - intros [Hne Hall]. apply set_eq. intros x.
    rewrite elem_of_singleton, elem_of_list_to_set. split.
    + intros ->. destruct currentips as [|y l]; [done|].
      rewrite <- (Hall y (list_elem_of_here _ _)). apply list_elem_of_here.
    + apply Hall.
Qed.

Lemma same_set_spec_witness :
  same_set "198.51.100.7" ["198.51.100.7"; "198.51.100.7"] = true
  ∧ ¬ (["198.51.100.7"; "203.0.113.9"] ≠ []
       ∧ ∀ x, x ∈ ["198.51.100.7"; "203.0.113.9"] → x = "198.51.100.7").
Proof.
  split.
  - apply (proj2 (same_set_spec "198.51.100.7" _)). split; [done|].
    intros x Hx. by in_list Hx.
  - intros H%same_set_spec. by vm_compute in H.
Defined.

(** *** How a run ends *)

(** X6.  The program ends with status 0, 1 or 2, and with 2 only when
    argparse refuses the command line; once [parse_args] has returned the
    status is 0 or 1.  The status is 0 exactly when nothing is written to
    the standard error; then no file is left, and either nothing of an
    update has been done or the update has gone as far as the removal of
    the temporary file. *)
Theorem exit_status d stop w :
  let o := invocation d stop w in
  (exit_code o = 0 ∨ exit_code o = 1 ∨ exit_code o = 2)
  ∧ (exit_code o = 2 ↔ ∃ message, stop = Some (ArgumentError message))
  ∧ (exit_code o = 0 ↔ stderr o = Silent)
  ∧ (exit_code o = 0 →
     files (final o) = ∅
     ∧ (existsb is_update (log (final o)) = false
        ∨ last (log (final o)) = Some (EvRemove (tmpname w)))).
Proof.
  destruct stop as [[message|text]|]; simpl.
  { split_and!; [auto|split; eauto|split; done|done]. }
  { split_and!; [auto|split; [done|by intros [? ?]]|done|by auto]. }
  assert (Hrun :
    (exit_code (run d w) = 0 ∨ exit_code (run d w) = 1)
    ∧ (exit_code (run d w) = 0 ↔ stderr (run d w) = Silent)
    ∧ (exit_code (run d w) = 0 →
       files (final (run d w)) = ∅
       ∧ (existsb is_update (log (final (run d w))) = false
          ∨ last (log (final (run d w))) = Some (EvRemove (tmpname w))))).
  { destruct (run_path d w)
      as [| | |p s h ? ? ? ? ? ? ?| |p s h ip cur out err rc];
      try (split_and!; [auto|split; done|done]).
    - split_and!; [auto|done|]. intros _. split; [done|]. left.
      apply lookups_no_update.
    - destruct (bool_decide (rc ≠ 0)).
      + split_and!; [auto|split; done|done].
      + split_and!; [auto|done|]. intros _. split; [done|]. right.
        rewrite last_app. reflexivity. }
  destruct Hrun as (H01 & Herr & Hok).
  split_and!; [tauto| |done|done].
  split; [lia|by intros [? ?]].
Qed.

Lemma exit_status_witness :
  files (final (run None Sample.moved)) = ∅
  ∧ stderr (run None Sample.moved) = Silent
  ∧ exit_code (run None Sample.offline) = 1
  ∧ exit_code
      (invocation None
         (Some (ArgumentError "argument -d/--dnstype: invalid choice: 'MX'"))
         Sample.moved) = 2.
Proof.
  destruct (exit_status None None Sample.moved) as (_ & _ & Herr & Hok).
  destruct (exit_status None None Sample.offline)
    as ([H0|[H1|H2]] & H2' & Herr' & _).
  - apply Herr' in H0. by vm_compute in H0.
  - split_and!; [|by apply Herr; vm_compute|done|].
    + by apply Hok; vm_compute.
    + apply (exit_status None
               (Some (ArgumentError
                        "argument -d/--dnstype: invalid choice: 'MX'"))
               Sample.moved).
      by eexists.
  - apply H2' in H2 as [? ?]. discriminate.
Defined.

(** X7.  Once nsupdate has been launched and has ended, with whatever
    status, the temporary file is removed.  A run that leaves a file has
    ended with an exception nobody caught, and the one file it leaves is the
    temporary file it has created.  The only path a run removes is that
    file. *)
Theorem tempfile_lifetime d w :
  (∀ cmd r, EvPopen cmd ∈ log (final (run d w)) → popen w cmd = inr r →
     files (final (run d w)) = ∅
     ∧ EvRemove (tmpname w) ∈ log (final (run d w)))
  ∧ (files (final (run d w)) ≠ ∅ →
     (∃ e, stderr (run d w) = Traceback e)
     ∧ dom (files (final (run d w))) = {[ tmpname w ]}
     ∧ EvTempCreate (tmpname w) ∈ log (final (run d w)))
  ∧ (∀ path, EvRemove path ∈ log (final (run d w)) →
     path = tmpname w ∧ EvTempCreate path ∈ log (final (run d w))).
Proof.
  split_and!.
  - intros cmd r. apply tempfile_removed_after_launch.
  - destruct (run_path d w); intros Hne; try done.
    + split_and!; [by eauto|apply dom_singleton_L|].
      apply elem_of_app. right. apply list_elem_of_here.
  - intros path.
    assert (Hno : ∀ p s h, EvRemove path ∉ lookups w p s h)
      by (intros; by eapply not_in_no_update; [apply lookups_no_update|]).
    destruct (run_path d w); intros Hin.
    + in_list Hin.
    + in_list Hin.
    + in_list Hin.
    + by apply Hno in Hin.
    + apply elem_of_app in Hin as [Hin|Hin]; [by apply Hno in Hin|].
      in_list Hin.
    + apply elem_of_app in Hin as [Hin|Hin]; [by apply Hno in Hin|].
      in_list Hin. injection Hin as ->. split; [done|].
      apply elem_of_app. right. apply list_elem_of_here.
Qed.

Lemma tempfile_lifetime_witness :
  files (final (run None Sample.refused)) = ∅
  ∧ ((∃ e, stderr (run None Sample.no_nsupdate) = Traceback e)
     ∧ dom (files (final (run None Sample.no_nsupdate)))
       = {[ tmpname Sample.no_nsupdate ]}
     ∧ EvTempCreate (tmpname Sample.no_nsupdate)
       ∈ log (final (run None Sample.no_nsupdate)))
  ∧ EvTempCreate "/tmp/tmpq3x8z1vd" ∈ log (final (run None Sample.moved)).
Proof.
  destruct (tempfile_lifetime None Sample.refused) as (Hgone & _ & _).
  destruct (tempfile_lifetime None Sample.no_nsupdate) as (_ & Hleft & _).
  destruct (tempfile_lifetime None Sample.moved) as (_ & _ & Hrm).
  split; [|split].
  - eapply (Hgone (command Sample.refused Sample.key)); [|reflexivity].
    vm_compute. do 6 apply list_elem_of_further. apply list_elem_of_here.
  - apply Hleft. by vm_compute.
  - apply (Hrm "/tmp/tmpq3x8z1vd"). vm_compute.
    do 7 apply list_elem_of_further. apply list_elem_of_here.
Defined.

(** *** The arguments *)

Lemma getargs_value d w :
  ∃ a, value (getargs d w) = Ret a
    ∧ Args.exe a = Args.exe (parse_args w)
    ∧ Args.privkey a = Args.privkey (parse_args w)
    ∧ Args.server a = Args.server (parse_args w)
    ∧ Args.force a = Args.force (parse_args w)
    ∧ Args.ttl a = Args.ttl (parse_args w)
    ∧ Args.hostname a = Args.hostname (parse_args w)
    ∧ Args.dnstype a = Args.dnstype (parse_args w)
    ∧ Args.deleteonly a = Args.deleteonly (parse_args w)
    ∧ Args.remoteiplookup a = Some (the_url w).
Proof.
  rewrite (value_agree _ _ (getargs_agree d None w)).
  destruct (getargs_None w initial) as (a & Ha & H). exists a.
  split; [|done]. unfold value. by rewrite Ha.
Qed.

(** X8.  [getargs] changes nothing but the lookup URL: a URL given on the
    command line is kept, and without one the URL is that of api.ipify.org
    for type 'A' and that of api64.ipify.org for every other type.  The only
    URL a run requests is this one. *)
Theorem lookup_url_default d w :
  let given := parse_args w in
  let url :=
    match Args.remoteiplookup given with
    | Some url => url
    | None =>
        if bool_decide (Args.dnstype given = "A")
        then "https://api.ipify.org" else "https://api64.ipify.org"
    end in
  (∃ a, value (getargs d w) = Ret a
     ∧ Args.remoteiplookup a = Some url
     ∧ (Args.exe a, Args.privkey a, Args.server a, Args.force a, Args.ttl a,
        Args.hostname a, Args.dnstype a, Args.deleteonly a)
       = (Args.exe given, Args.privkey given, Args.server given,
          Args.force given, Args.ttl given, Args.hostname given,
          Args.dnstype given, Args.deleteonly given))
  ∧ ∀ u, EvHttpGet u ∈ log (final (run d w)) → u = url.
Proof.
  cbv zeta. split.
  - destruct (getargs_value d w)
      as (a & Ha & H1 & H2 & H3 & H4 & H5 & H6 & H7 & H8 & Hurl).
    exists a. split_and!; [done..|]. by rewrite H1, H2, H3, H4, H5, H6, H7, H8.
  - intros u.
    assert (Hfetch : ∀ h s, EvHttpGet u
              ∉ effects (get_current_ips None w h s (the_type w))).
    { intros h s Hin.
      destruct (get_current_ips_path None w h s (the_type w))
        as (ips & _ & Hp).
      destruct Hp as [evs Hr|evs ? ? Hr ?|evs ? ? Hr ? ?|evs ? ? Hr ? ?];
        destruct Hr; simpl in Hin; in_list Hin. }
    assert (Hlook : ∀ p s h, EvHttpGet u ∈ lookups w p s h → u = the_url w).
    { intros p s h Hin. unfold lookups in Hin.
      apply elem_of_app in Hin as [Hin|Hin]; [|by apply Hfetch in Hin].
      in_list Hin. by injection Hin. }
    destruct (run_path d w); intros Hin.
    + in_list Hin.
    + in_list Hin.
    + in_list Hin. by injection Hin.
    + by eapply Hlook.
    + apply elem_of_app in Hin as [Hin|Hin]; [by eapply Hlook|]. in_list Hin.
    + apply elem_of_app in Hin as [Hin|Hin]; [by eapply Hlook|]. in_list Hin.
Qed.

Lemma lookup_url_default_witness :
  (∃ a, value (getargs None Sample.moved) = Ret a
        ∧ Args.remoteiplookup a = Some "https://api.ipify.org")
  ∧ ∀ u, EvHttpGet u ∈ log (final (run None Sample.moved)) →
         u = "https://api.ipify.org".
Proof.
  destruct (lookup_url_default None Sample.moved)
    as ((a & Ha & Hurl & _) & Hget).
  split; [by exists a|]. apply Hget.
Defined.

(** *** When nsupdate is launched *)

(** X9.  nsupdate is launched only when the three required arguments are
    there, the key is an existing file, and the echo service has given an
    address that [is_ip] accepts for the record type.  The command is the
    executable, [-k], the key, [-v] and the temporary file, and the script
    built from the configured server and host name and that address has been
    written to the file before. *)
Theorem launch_preconditions d w cmd :
  EvPopen cmd ∈ log (final (run d w)) →
  ∃ privkey server hostname ip,
    configured w privkey server hostname
    ∧ isfile w privkey = true
    ∧ value (get_remote_ip d w (the_url w) (the_type w)) = Ret (Some ip)
    ∧ is_ip ip (the_type w) = Ret true
    ∧ cmd = [Args.exe (parse_args w); "-k"; privkey; "-v"; tmpname w]
    ∧ ∃ before after,
        log (final (run d w))
        = before ++ [EvWrite (tmpname w) (script w server hostname ip);
                     EvPopen cmd] ++ after.
Proof.
  assert (Hno : ∀ p s h, EvPopen cmd ∉ lookups w p s h)
    by (intros; by eapply not_in_no_update; [apply lookups_no_update|]).
  assert (Hvalid : ∀ ip,
    value (get_remote_ip None w (the_url w) (the_type w)) = Ret (Some ip) →
    value (get_remote_ip d w (the_url w) (the_type w)) = Ret (Some ip)
    ∧ is_ip ip (the_type w) = Ret true).
  { intros ip Hip. rewrite <- (get_remote_ip_value d) in Hip. split; [done|].
    pose proof (get_remote_ip_cases d w (the_url w) (the_type w)) as Hc.
    destruct (http_get w (the_url w)) as [e|body]; [congruence|].
    destruct (is_ip (Str.strip body) (the_type w)) as [[|]|e] eqn:E;
      congruence. }
  destruct (run_path d w) as [| | | |p s h ip cur e Hc Hf Hip ? ? Hp
                               |p s h ip cur out' err' rc' Hc Hf Hip ? ? Hp];
    intros Hin.
  - in_list Hin.
  - in_list Hin.
  - in_list Hin.
  - by apply Hno in Hin.
  - apply elem_of_app in Hin as [Hin|Hin]; [by apply Hno in Hin|].
    in_list Hin. injection Hin as ->.
    destruct (Hvalid ip Hip). exists p, s, h, ip. split_and!; try done.
    exists (lookups w p s h ++ [EvTempCreate (tmpname w)]), [].
    by rewrite <- app_assoc.
  - apply elem_of_app in Hin as [Hin|Hin]; [by apply Hno in Hin|].
    in_list Hin. injection Hin as ->.
    destruct (Hvalid ip Hip). exists p, s, h, ip. split_and!; try done.
    exists (lookups w p s h ++ [EvTempCreate (tmpname w)]),
      [EvRemove (tmpname w)].
    by rewrite <- app_assoc.
Qed.

Lemma launch_preconditions_witness :
  ∃ privkey server hostname ip,
    configured Sample.moved privkey server hostname
    ∧ isfile Sample.moved privkey = true
    ∧ value (get_remote_ip None Sample.moved (the_url Sample.moved)
               (the_type Sample.moved)) = Ret (Some ip)
    ∧ is_ip ip (the_type Sample.moved) = Ret true
    ∧ command Sample.moved Sample.key
      = [Args.exe (parse_args Sample.moved); "-k"; privkey; "-v";
         tmpname Sample.moved].
Proof.
  destruct (launch_preconditions None Sample.moved
              (command Sample.moved Sample.key))
    as (p & s & h & ip & ? & ? & ? & ? & ? & _).
  - vm_compute. do 6 apply list_elem_of_further. apply list_elem_of_here.
  - by exists p, s, h, ip.
Defined.

(** *** The lines of the script *)

(** X10.  When the server, the zone, the host name, the address and the
    record type hold no newline, the script read back line by line is the
    eight lines the program puts together, whatever the TTL: nothing but
    these directives is in the file. *)
Theorem script_lines server zone hostname newIP ttl type deleteOnly :
  one_line server = true → one_line zone = true →
  one_line hostname = true → one_line newIP = true →
  one_line type = true →
  Str.split "010"
    (nsupdate_content server zone hostname newIP ttl type deleteOnly)
  = ["server " +:+ server +:+ "."; "debug yes"; "zone " +:+ zone +:+ ".";
     "update delete " +:+ hostname +:+ ". " +:+ type;
     if deleteOnly then ""
     else "update add " +:+ hostname +:+ ". " +:+ pretty ttl +:+ " "
          +:+ type +:+ " " +:+ newIP;
     "show"; "send"; "quit"].
Proof.
  intros Hs Hz Hh Hip Ht.
  rewrite nsupdate_content_lines.
  unfold written_transaction, delete_directive, add_directive, nl.
  apply split_join; [done|].
  pose proof (pretty_Z_one_line ttl) as Httl.
  unfold one_line in *.
  destruct deleteOnly;
    repeat (apply Forall_cons; split); try apply Forall_nil;
    rewrite ?all_chars_app, ?Hs, ?Hz, ?Hh, ?Hip, ?Ht, ?Httl; done.
Qed.

Lemma script_lines_witness :
  Str.split "010"
    (nsupdate_content "ns1.example.net" "example.com" "host.example.com"
       "203.0.113.5" (-1) "A" false)
  = ["server ns1.example.net."; "debug yes"; "zone example.com.";
     "update delete host.example.com. A";
     "update add host.example.com. -1 A 203.0.113.5";
     "show"; "send"; "quit"].
Proof.
  apply (script_lines "ns1.example.net" "example.com" "host.example.com"
           "203.0.113.5" (-1) "A" false); reflexivity.
Defined.

(** *** The zone of a host name of one label *)

(** X11.  For a host name without a dot the zone [main] derives is empty:
    the script a run writes for it names the zone [.], the root. *)
Theorem single_label_zone d w privkey server hostname path content :
  configured w privkey server hostname →
  dotless hostname = true →
  EvWrite path content ∈ log (final (run d w)) →
  Str.join "." (tail (Str.split "." hostname)) = ""
  ∧ ∃ ip,
      content
      = nsupdate_content server "" hostname ip (Args.ttl (parse_args w))
          (Args.dnstype (parse_args w)) (Args.deleteonly (parse_args w))
      ∧ (one_line server = true → one_line hostname = true →
         one_line ip = true → one_line (Args.dnstype (parse_args w)) = true →
         Str.split "010" content !! 2%nat = Some "zone .").
Proof.
  intros Hconf Hdot.
  assert (Hzone : Str.join "." (tail (Str.split "." hostname)) = "")
    by (by rewrite split_no_sep).
  assert (Hno : ∀ p s h, EvWrite path content ∉ lookups w p s h)
    by (intros; by eapply not_in_no_update; [apply lookups_no_update|]).
  assert (Hscript : ∀ ip,
    content = script w server hostname ip →
    Str.join "." (tail (Str.split "." hostname)) = ""
    ∧ ∃ ip,
        content
        = nsupdate_content server "" hostname ip (Args.ttl (parse_args w))
            (Args.dnstype (parse_args w)) (Args.deleteonly (parse_args w))
        ∧ (one_line server = true → one_line hostname = true →
           one_line ip = true →
           one_line (Args.dnstype (parse_args w)) = true →
           Str.split "010" content !! 2%nat = Some "zone .")).
  { intros ip ->. split; [done|]. exists ip. unfold script.
    rewrite Hzone. split; [done|]. intros. by rewrite script_lines. }
  destruct (run_path d w) as [| | | |p s h ip cur e Hc ? ? ? ? Hp
                               |p s h ip cur out' err' rc' Hc ? ? ? ? Hp];
    intros Hin.
  - in_list Hin.
  - in_list Hin.
  - in_list Hin.
  - by apply Hno in Hin.
  - apply elem_of_app in Hin as [Hin|Hin]; [by apply Hno in Hin|].
    in_list Hin. injection Hin as -> ->.
    destruct (configured_inj _ _ _ _ _ _ _ Hc Hconf) as (-> & -> & ->).
    by apply (Hscript ip).
  - apply elem_of_app in Hin as [Hin|Hin]; [by apply Hno in Hin|].
    in_list Hin. injection Hin as -> ->.
    destruct (configured_inj _ _ _ _ _ _ _ Hc Hconf) as (-> & -> & ->).
    by apply (Hscript ip).
Qed.

Lemma single_label_zone_witness :
  ∃ content,
    EvWrite "/tmp/tmpq3x8z1vd" content ∈ log (final (run None single_label))
    ∧ Str.split "010" content
      = ["server 192.0.2.53."; "debug yes"; "zone .";
         "update delete localhost. A";
         "update add localhost. 300 A 203.0.113.5"; "show"; "send"; "quit"].
Proof.
  assert (Hin : EvWrite "/tmp/tmpq3x8z1vd"
                  (script single_label "192.0.2.53" "localhost" "203.0.113.5")
                  ∈ log (final (run None single_label))).
  { vm_compute. do 4 apply list_elem_of_further. apply list_elem_of_here. }
  destruct (single_label_zone None single_label Sample.key "192.0.2.53"
              "localhost" _ _ ltac:(by vm_compute) eq_refl Hin)
    as (_ & ip & Hcontent & _).
  eexists. split; [exact Hin|]. by vm_compute.
Defined.

(** *** A server without an address *)

(** X12.  When the server is given by name and [getaddrinfo] raises or
    returns no entry at all, [get_current_ips] sends no DNS query and
    returns the empty list: the one action of the call is the resolution. *)
Theorem no_query_without_address d w hostname server t :
  is_ip server "ANY" = Ret false →
  (∃ e, getaddrinfo w server 80 = inl e) ∨ getaddrinfo w server 80 = inr [] →
  value (get_current_ips d w hostname server t) = Ret []
  ∧ effects (get_current_ips d w hostname server t)
    = [EvGetAddrInfo server 80].
Proof.
  intros Hlit Hres.
  destruct (get_current_ips_path d w hostname server t)
    as (ips & -> & Hpath).
  assert (Hnone : ∀ evs o, resolution w server evs o →
                           evs = [EvGetAddrInfo server 80] ∧ o = None).
  { intros evs o Hr. destruct Hr as [| | | |infos info ? Hg Hlast];
      try (split; congruence); try done.
    destruct Hres as [[e He]|He]; rewrite He in Hg; [done|].
    injection Hg as <-. done. }
  destruct Hpath as [evs Hr|evs ? ? Hr ?|evs ? ? Hr ? ?|evs ? ? Hr ? ?];
    apply Hnone in Hr as [-> ?]; done.
Qed.

Lemma no_query_without_address_witness :
  value (get_current_ips None no_address "host.example.com"
           "ns1.example.net" "A") = Ret []
  ∧ effects (get_current_ips None no_address "host.example.com"
               "ns1.example.net" "A")
    = [EvGetAddrInfo "ns1.example.net" 80].
Proof.
  apply (no_query_without_address None no_address "host.example.com"
           "ns1.example.net" "A"); [by vm_compute|by right].
Defined.

(** *** When the validator raises *)

Lemma has_nul_app s1 s2 :
  Str.has_nul (s1 +:+ s2) = Str.has_nul s1 || Str.has_nul s2.
Proof.
  induction s1 as [|c s1 IH]; [done|].
  rewrite append_cons. simpl. by rewrite IH, orb_assoc.
Qed.

Lemma digit_group_no_nul g : digit_group g = true → Str.has_nul g = false.
Proof.
  unfold digit_group. intros [_ H]%andb_prop.
  induction g as [|c g IH]; [done|]. simpl in *.
  apply andb_prop in H as [Hc Hg]. rewrite (IH Hg), orb_false_r.
  unfold Str.is_digit in Hc. apply andb_prop in Hc as [Hc _].
  apply N.leb_le in Hc. apply N.eqb_neq. lia.
Qed.

Lemma is_ipv4_no_nul ip : is_ipv4 ip = true → Str.has_nul ip = false.
Proof.
  intros (a & b & c & d & tl & Ha & Hb & Hc & Hd & Htl & ->)%is_ipv4_spec.
  rewrite !has_nul_app.
  rewrite (digit_group_no_nul a), (digit_group_no_nul b),
    (digit_group_no_nul c), (digit_group_no_nul d) by done.
  by destruct Htl as [-> | ->].
Qed.

(** X13.  A string with a null character makes [is_ip] raise for every
    record type but 'A': [socket.inet_pton] refuses it with [ValueError],
    which the [except socket.error] of [is_ipv6] does not catch; for type
    'A' the answer is false.  The callers take the exception for a refusal:
    [get_remote_ip] returns [None] for such a body, and [get_current_ips]
    returns the empty list for such a server without resolving or querying
    anything. *)
Theorem is_ip_raises_on_nul ip :
  Str.has_nul ip = true →
  (∀ t, t ≠ "A" →
     is_ip ip t = Raise (Exc (ValueError "embedded null character")))
  ∧ is_ip ip "A" = Ret false
  ∧ (∀ d w url t body,
       t ≠ "A" → http_get w url = inr body → Str.strip body = ip →
       value (get_remote_ip d w url t) = Ret None)
  ∧ (∀ d w hostname t,
       value (get_current_ips d w hostname ip t) = Ret []
       ∧ effects (get_current_ips d w hostname ip t) = []).
Proof.
  intros Hnul.
  assert (H4 : is_ipv4 ip = false).
  { destruct (is_ipv4 ip) eqn:H4; [|done].
    apply is_ipv4_no_nul in H4. congruence. }
  assert (H6 : is_ipv6 ip = Raise (Exc (ValueError "embedded null character"))).
  { unfold is_ipv6, socket_inet_pton6. by rewrite Hnul. }
  assert (Hraise : ∀ t, t ≠ "A" →
            is_ip ip t = Raise (Exc (ValueError "embedded null character"))).
  { intros t Ht. unfold is_ip. rewrite (bool_decide_eq_false_2 _ Ht).
    destruct (bool_decide (t = "AAAA")); [done|]. by rewrite H4. }
  split_and!; [done|by rewrite is_ip_A, H4|..].
  - intros d w url t body Ht Hget Hstrip.
    pose proof (get_remote_ip_cases d w url t) as Hcases.
    by rewrite Hget, Hstrip, (Hraise t Ht) in Hcases.
  - intros d w hostname t.
    destruct (get_current_ips_path d w hostname ip t) as (ips & -> & Hpath).
    assert (Hany : is_ip ip "ANY"
                   = Raise (Exc (ValueError "embedded null character")))
      by by apply Hraise.
    assert (Hnone : ∀ evs o, resolution w ip evs o → evs = [] ∧ o = None).
    { intros evs o Hr. destruct Hr; [done|congruence..]. }
    destruct Hpath as [evs Hr|evs ? ? Hr ?|evs ? ? Hr ? ?|evs ? ? Hr ? ?];
      apply Hnone in Hr as [-> ?]; done.
Qed.

Lemma is_ip_raises_on_nul_witness :
  is_ip (String "000" "::1") "AAAA"
    = Raise (Exc (ValueError "embedded null character"))
  ∧ is_ip (String "000" "::1") "A" = Ret false
  ∧ effects (get_current_ips None Sample.moved "host.example.com"
               (String "000" "::1") "A") = [].
Proof.
  destruct (is_ip_raises_on_nul (String "000" "::1") eq_refl)
    as (Hraise & HA & _ & Hcur).
  split_and!; [by apply Hraise|done|].
  apply (Hcur None Sample.moved "host.example.com" "A").
Defined.

(** *** No string is of both families *)

(** What [inet_pton4] returns has four octets. *)
Lemma inet_pton4_loop_length src : ∀ saw octets done cur quad,
  (if saw : bool then octets = S (length done) ∧ (octets ≤ 4)%nat
   else octets = length done ∧ (octets ≤ 3)%nat) →
  Libc.inet_pton4_loop src saw octets done cur = Some quad →
  length quad = 4%nat.
Proof.
  induction src as [|ch src IH]; intros saw octets done cur quad Hinv; simpl.
  - destruct (octets <? 4)%nat eqn:Ho; [done|]. intros [= <-].
    apply Nat.ltb_ge in Ho. rewrite length_app. simpl.
    destruct saw; lia.
  - destruct (Libc.dec_digit_value ch) as [dgt|].
    + destruct (saw && (cur =? 0)%N); [done|].
      destruct (255 <? cur * 10 + dgt)%N; [done|].
      destruct saw.
      * by apply IH.
      * destruct (4 <? S octets)%nat eqn:Ho; [done|].
        apply Nat.ltb_ge in Ho. apply IH. lia.
    + destruct (bool_decide (ch = "."%char) && saw) eqn:Hdot; [|done].
      apply andb_prop in Hdot as [_ ->].
      destruct (octets =? 4)%nat eqn:Ho; [done|].
      apply Nat.eqb_neq in Ho. apply IH. rewrite length_app. simpl. lia.
Qed.

Lemma digit_is_hex c :
  Str.is_digit c = true → ∃ dgt, Libc.hex_digit_value c = Some dgt.
Proof.
  unfold Str.is_digit, Libc.hex_digit_value. intros ->. eauto.
Qed.

(** Decimal digits followed by a dot, at the start of the text: whatever
    follows, the sixteen bytes are not reached. *)
Lemma inet_pton6_digits_dot a : ∀ rest curtok seen val,
  all_chars Str.is_digit a = true →
  Libc.inet_pton6_loop (a +:+ String "." rest) [] None curtok seen val = None.
Proof.
  induction a as [|c a IH]; intros rest curtok seen val Hall.
  - rewrite append_nil_l. simpl.
    destruct (Libc.inet_pton4 curtok) as [quad|] eqn:H4; [|done].
    unfold Libc.inet_pton4 in H4.
    apply inet_pton4_loop_length in H4; [|simpl; lia].
    unfold Libc.inet_pton6_finish. simpl. by rewrite H4.
  - rewrite append_cons. simpl in *. apply andb_prop in Hall as [Hc Ha].
    destruct (digit_is_hex c Hc) as [dgt ->].
    destruct (seen =? 4)%nat; [done|].
    destruct (65535 <? _)%N; [done|]. by apply IH.
Qed.

(** X14.  A string that [is_ipv4] accepts is refused by [is_ipv6]: no
    string is taken for an address of type A and for one of type AAAA, and
    what [is_ip] accepts for type AAAA is not accepted for type A. *)
Theorem families_are_disjoint ip :
  (is_ipv4 ip = true → is_ipv6 ip = Ret false)
  ∧ (is_ip ip "A" = Ret true → is_ip ip "AAAA" = Ret false)
  ∧ (is_ip ip "AAAA" = Ret true → is_ip ip "A" = Ret false).
Proof.
  assert (H : is_ipv4 ip = true → is_ipv6 ip = Ret false).
  { intros H4. pose proof (is_ipv4_no_nul ip H4) as Hnul.
    apply is_ipv4_spec in H4
      as (a & b & c & d & tl & Ha & Hb & Hc & Hd & Htl & ->).
    unfold is_ipv6, socket_inet_pton6. rewrite Hnul.
    apply digit_group_spec in Ha as (Hall & Hlen & _).
    assert (Hloop : ∀ s, Libc.inet_pton6_loop
              (a +:+ "." +:+ b +:+ "." +:+ c +:+ "." +:+ d +:+ tl) [] None
              s 0 0%N = None).
    { intros s. rewrite (append_cons "." "" _), append_nil_l.
      by apply inet_pton6_digits_dot. }
    unfold Libc.inet_pton6.
    destruct a as [|ch a]; [simpl in Hlen; lia|].
    rewrite append_cons in *. simpl in Hall.
    apply andb_prop in Hall as [Hch _].
    rewrite bool_decide_eq_false_2; [by rewrite Hloop|].
    by intros ->. }
  split_and!; [done|..].
  - rewrite is_ip_A, is_ip_AAAA. by intros [= ?%H].
  - rewrite is_ip_A, is_ip_AAAA. intros H6.
    destruct (is_ipv4 ip); [|done]. by rewrite H in H6.
Qed.

Lemma families_are_disjoint_witness :
  is_ipv6 "999.1.1.1" = Ret false ∧ is_ip "2001:db8::53" "A" = Ret false.
Proof.
  destruct (families_are_disjoint "999.1.1.1") as (H4 & _ & _).
  destruct (families_are_disjoint "2001:db8::53") as (_ & _ & H6).
  split; [by apply H4|]. by apply H6.
Defined.

(** *** [IPDEBUG] set to the empty string *)

Lemma get_remote_ip_quiet w url t : quiet (get_remote_ip None w url t).
Proof.
  unfold get_remote_ip. cbn [truthy is_not_None andb]. repeat quiet_step.
Qed.

Lemma get_current_ips_quiet w hostname server t :
  quiet (get_current_ips None w hostname server t).
Proof.
  unfold get_current_ips. cbn [truthy is_not_None andb]. repeat quiet_step.
Qed.

(** The empty string is not [None] and is false as a condition: of the
    debugging output only that of [run_nsupdate] is left. *)
Lemma run_empty_debug w :
  let s := final (run empty_debug w) in
  (printed s = [] ∧ ∀ cmd, EvPopen cmd ∈ log s → ∃ e, popen w cmd = inl e)
  ∨ (∃ cmd out err rc, popen w cmd = inr (out, err, rc)
       ∧ EvPopen cmd ∈ log s
       ∧ (∀ cmd', EvPopen cmd' ∈ log s → cmd' = cmd)
       ∧ printed s = [streams_text out err]).
Proof.
  unfold run, main, empty_debug.
  change (getargs (Some "") w) with (getargs None w).
  destruct (getargs_None w initial)
    as (a & Ha & Hexe & Hkey & Hsrv & Hforce & Httl & Hhost & Htype & Hdel & Hurl).
  rewrite (bind_run _ _ _ _ _ Ha).
  rewrite Hkey, Hsrv, Hhost, Hurl, Htype, Hexe, Httl, Hdel, Hforce. simpl.
  assert (Hnone : ∀ evs : list event, existsb is_update evs = false →
            ∀ cmd, EvPopen cmd ∈ evs → ∃ e, popen w cmd = inl e).
  { intros evs Hevs cmd Hin. by destruct (not_in_no_update (EvPopen cmd) _ Hevs eq_refl Hin). }
  destruct (Args.privkey (parse_args w)) as [privkey|] eqn:Epriv;
    [|left; split; [done|by apply Hnone]].
  destruct (Args.server (parse_args w)) as [server|] eqn:Eserver;
    [|left; split; [done|by apply Hnone]].
  destruct (Args.hostname (parse_args w)) as [hostname|] eqn:Ehost;
    [|left; split; [done|by apply Hnone]].
  rewrite emit_bind.
  destruct (isfile w privkey) eqn:Hfile; simpl;
    [|left; split; [done|by apply Hnone]].
  change (get_remote_ip (Some "") w) with (get_remote_ip None w).
  change (get_current_ips (Some "") w) with (get_current_ips None w).
  match goal with |- context [get_remote_ip None w ?u ?t ≫= _] =>
    destruct (steady_run (get_remote_ip None w u t)
                (mkState [] [EvIsFile privkey] ∅)
                (get_remote_ip_steady _ _ _ _)) as (s1 & Hs1 & Hl1 & Hf1);
    pose proof (get_remote_ip_quiet w u t
                  (mkState [] [EvIsFile privkey] ∅)) as Hp1
  end.
  rewrite Hs1 in Hp1. rewrite (bind_run _ _ _ _ _ Hs1).
  rewrite get_remote_ip_effects in Hl1. simpl in Hl1, Hf1, Hp1.
  fold (the_type w) in *.
  destruct (get_remote_ip_returns None w (the_url w) (the_type w)) as [[ip|] Hip];
    rewrite Hip; simpl; rewrite ?Hl1, ?Hf1, ?Hp1;
    [|left; split; [done|by apply Hnone]].
  destruct (steady_run (get_current_ips None w hostname server (the_type w)) s1
              (get_current_ips_steady _ _ _ _ _)) as (s2 & Hs2 & Hl2 & Hf2).
  pose proof (get_current_ips_quiet w hostname server (the_type w) s1) as Hp2.
  rewrite Hs2 in Hp2. rewrite (bind_run _ _ _ _ _ Hs2). simpl in Hp2.
  destruct (get_current_ips_returns None w hostname server (the_type w))
    as [currentips Hcur].
  rewrite Hcur. rewrite Hl1 in Hl2. rewrite Hf1 in Hf2. rewrite Hp1 in Hp2.
  assert (Hlook : log s2 = lookups w privkey server hostname).
  { by rewrite Hl2. }
  fold (unchanged w ip currentips).
  destruct (unchanged w ip currentips) eqn:Hun; simpl.
  { left. rewrite Hp2, Hlook. split; [done|].
    apply Hnone, lookups_no_update. }
  fold (script w server hostname ip).
  unfold create_nsupdate_contents, run_nsupdate, os_remove.
  cbv [mbind M_bind mret M_ret emit update_files when truthy andb is_not_None
       print].
  cbn [printed log files].
  fold (command w privkey).
  assert (Hone : ∀ tl cmd', (tl = [] ∨ tl = [EvRemove (tmpname w)]) →
            EvPopen cmd' ∈ log s2 ++ EvTempCreate (tmpname w)
              :: EvWrite (tmpname w) (script w server hostname ip)
              :: EvPopen (command w privkey) :: tl →
            cmd' = command w privkey).
  { intros tl cmd' Htl Hin. rewrite Hlook in Hin.
    apply elem_of_app in Hin as [Hin|Hin].
    { by destruct (not_in_no_update (EvPopen cmd') _
                     (lookups_no_update w privkey server hostname) eq_refl Hin). }
    destruct Htl as [->| ->]; in_list Hin; by simplify_eq. }
  destruct (popen w (command w privkey)) as [e|[[out err] rc]] eqn:Hpopen;
    cbn -[bool_decide].
  - left. rewrite Hp2, <- !app_assoc. simpl. split; [done|].
    intros cmd Hin. apply (Hone []) in Hin as ->; [eauto|by left].
  - right. exists (command w privkey), out, err, rc. split; [done|].
    destruct (bool_decide (rc ≠ 0)); cbn; rewrite Hp2, <- !app_assoc; simpl.
    all: split_and!; [| |done].
    all: try (apply elem_of_app; right; do 2 apply list_elem_of_further;
              apply list_elem_of_here).
    all: intros cmd Hin; apply (Hone [EvRemove (tmpname w)]) in Hin; [done|by right].
Qed.

(** X15.  With [IPDEBUG] set to the empty string the run prints the two
    streams of nsupdate, once, when nsupdate was launched and ended, and
    prints nothing on every other path: [run_nsupdate] tests the variable
    against [None], every other place tests its truth. *)
Theorem empty_debug_prints_streams w :
  let s := final (run empty_debug w) in
  (∀ cmd out err rc,
     EvPopen cmd ∈ log s → popen w cmd = inr (out, err, rc) →
     printed s = [streams_text out err])
  ∧ ((∀ cmd, EvPopen cmd ∈ log s → ∃ e, popen w cmd = inl e) →
     printed s = []).
Proof.
  intros s. subst s.
  destruct (run_empty_debug w)
    as [[Hp Hraise]|(cmd & out & err & rc & Hpopen & Hin & Hone & Hp)].
  - split; [|done]. intros cmd out err rc Hin Hpopen.
    destruct (Hraise cmd Hin) as [e He]. congruence.
  - split.
    + intros cmd' out' err' rc' Hin' Hpopen'.
      apply Hone in Hin' as ->. congruence.
    + intros Hraise. destruct (Hraise cmd Hin) as [e He]. congruence.
Qed.

Lemma empty_debug_prints_streams_witness :
  printed (final (run empty_debug Sample.refused))
    = [streams_text (String.list_byte_of_string "Outgoing update query:")
         (String.list_byte_of_string "update failed: REFUSED")]
  ∧ printed (final (run empty_debug Sample.no_nsupdate)) = [].
Proof.
  split.
  - destruct (empty_debug_prints_streams Sample.refused) as [H _].
    apply (H (command Sample.refused Sample.key) _ _ 2); [|reflexivity].
    vm_compute.
    repeat first [apply list_elem_of_here | apply list_elem_of_further].
  - destruct (empty_debug_prints_streams Sample.no_nsupdate) as [_ H].
    apply H. intros cmd Hin. vm_compute in Hin. in_list Hin.
    simplify_eq. by eexists.
Defined.
